(** * Movie recommendation backend (src/app.py): a shallow embedding

    The program is a Flask application with four routes.  Three things
    happen in it that are not pure computation:

    - it reads the process environment with [os.getenv], at the places the
      source does so;
    - it sends one HTTPS POST per call of [call_azure_openai], through
      [requests.post];
    - it raises and catches Python exceptions.

    The embedding keeps all three: a [World] holds [os.environ] and the log
    of the requests sent so far, the upstream service is an arbitrary
    function from that log and the request to an outcome, and a handler is
    a function from a world to a result (a value or a raised exception) and
    the world afterwards.

    Standard output is taken to be a UTF-8 stream with strict error
    handling, which is what Python gives on a UTF-8 terminal.  The [print]
    calls of a fixed text and of the text of an exception are left out: such
    a stream accepts them (the texts of exceptions are taken to hold no
    surrogate).  The three [print] calls of a value that comes from outside
    (the user's message, the reply of the service) are kept, since such a
    stream refuses a string that holds a surrogate code point and [print]
    then raises inside the [try] block it stands in. *)

From Stdlib Require Import ZArith Lia.
From stdpp Require Import gmap strings list fin_maps pretty.

Set Warnings "-register-all".
Local Open Scope Z_scope.

(** ** Python values

    The values that travel through the program are the ones [json] produces
    and consumes: [None], booleans, integers, floats, strings, lists and
    dictionaries with string keys.  A float is kept as the decimal literal
    [m * 10^e] the source writes or the JSON text carries. *)

Inductive pyval : Type :=
  | PNone
  | PBool (b : bool)
  | PInt (n : Z)
  | PFloat (m e : Z)
  | PStr (s : string)
  | PList (l : list pyval)
  | PDict (d : gmap string pyval).

(** [type(v).__name__] *)
Definition type_name (v : pyval) : string :=
  match v with
  | PNone => "NoneType"
  | PBool _ => "bool"
  | PInt _ => "int"
  | PFloat _ _ => "float"
  | PStr _ => "str"
  | PList _ => "list"
  | PDict _ => "dict"
  end.

(** ** Exceptions

    An exception is its class and the text [str(e)] gives.  The classes are
    the ones the program and the two libraries it calls can raise; all of
    them derive from [Exception], which is what the [except] clauses of
    the program catch.  The first five are the hierarchy of
    [requests.exceptions], whose root is [RequestException]; the class of
    the error [response.json()] raises on a body it cannot decode is left
    to the response, since it differs between versions of the library. *)

Inductive exc_class : Type :=
  | RequestException
  | ConnectionError
  | Timeout
  | HTTPError
  | RequestsJSONDecodeError
  | KeyError
  | IndexError
  | TypeError
  | AttributeError
  | ValueError
  | UnicodeEncodeError
  | BadRequest
  | UnsupportedMediaType
  | PyException
  | OtherException (name : string).

Record exn : Type := mk_exn { exc_cls : exc_class; exc_str : string }.

(** [isinstance(e, requests.exceptions.RequestException)] *)
Definition isinstance_RequestException (e : exn) : bool :=
  match exc_cls e with
  | RequestException | ConnectionError | Timeout | HTTPError
  | RequestsJSONDecodeError => true
  | _ => false
  end.

(** [isinstance(e, KeyError)] *)
Definition isinstance_KeyError (e : exn) : bool :=
  match exc_cls e with
  | KeyError => true
  | _ => false
  end.

(** [Exception(msg)] *)
Definition Exception (msg : string) : exn := mk_exn PyException msg.

Inductive Result (A : Type) : Type :=
  | Returns (a : A)
  | Raises (e : exn).
Arguments Returns {A} a.
Arguments Raises {A} e.

(** ** Subscripts and attribute access on Python values *)

Inductive subscript : Type :=
  | KStr (s : string)
  | KInt (n : Z).

(** [repr] of the keys the program looks up, which are plain identifiers. *)
Definition repr_key (s : string) : string := "'" +:+ s +:+ "'".

(** [l[n]] on a list, with Python's negative indices. *)
Definition list_index {A : Type} (l : list A) (n : Z) : option A :=
  let len := Z.of_nat (length l) in
  if (0 <=? n) && (n <? len) then l !! Z.to_nat n
  else if (- len <=? n) && (n <? 0) then l !! Z.to_nat (len + n)
  else None.

(** The characters of a string, as a list, for [s[n]]. *)
Fixpoint string_chars (s : string) : list string :=
  match s with
  | EmptyString => []
  | String c s' => String c EmptyString :: string_chars s'
  end.

(** [v[k]] *)
Definition py_getitem (v : pyval) (k : subscript) : Result pyval :=
  match v, k with
  | PDict d, KStr s =>
      match d !! s with
      | Some x => Returns x
      | None => Raises (mk_exn KeyError (repr_key s))
      end
  | PDict d, KInt n => Raises (mk_exn KeyError (pretty n))
  | PList l, KInt n =>
      match list_index l n with
      | Some x => Returns x
      | None => Raises (mk_exn IndexError "list index out of range")
      end
  | PList l, KStr _ =>
      Raises (mk_exn TypeError "list indices must be integers or slices, not str")
  | PStr s, KInt n =>
      match list_index (string_chars s) n with
      | Some c => Returns (PStr c)
      | None => Raises (mk_exn IndexError "string index out of range")
      end
  | PStr s, KStr _ =>
      Raises (mk_exn TypeError "string indices must be integers, not 'str'")
  | _, _ =>
      Raises (mk_exn TypeError
                ("'" +:+ type_name v +:+ "' object is not subscriptable"))
  end.

(** [v.get(key, default)]: the method exists on dictionaries only. *)
Definition py_get (v : pyval) (key : string) (default : pyval) : Result pyval :=
  match v with
  | PDict d =>
      match d !! key with
      | Some x => Returns x
      | None => Returns default
      end
  | _ =>
      Raises (mk_exn AttributeError
                ("'" +:+ type_name v +:+ "' object has no attribute 'get'"))
  end.

(** ** The outside world *)

(** What [requests.post(url, headers=..., json=..., timeout=...)] sends. *)
Record HttpRequest : Type := mk_request {
  rq_url : string;
  rq_headers : gmap string pyval;
  rq_json : pyval;
  rq_timeout : Z
}.

(** What [requests.post] hands back: the status line, the final URL and what
    [response.json()] gives on the body (the decoded value, or the exception
    the decoder raises). *)
Record Response : Type := mk_response {
  status_code : Z;
  reason : string;
  resp_url : string;
  json_result : Result pyval
}.

(** What a call of [requests.post] comes to: the library refuses the
    request while it prepares it, before any I/O (a URL without scheme or
    host, a header it cannot send) and raises; or it goes to the network
    with the request and then raises (no connection, a timeout) or returns
    the response. *)
Inductive PostOutcome : Type :=
  | PostRefused (e : exn)
  | PostRaises (e : exn)
  | PostReturns (r : Response).

(** The world: [os.environ]; [sent], the requests handed to [requests.post]
    so far, one per call, in order; and [on_wire], those of them with which
    the library went to the network. *)
Record World : Type := mk_world {
  environ : gmap string string;
  sent : list HttpRequest;
  on_wire : list HttpRequest
}.

(** ** Computations: state and exceptions *)

Definition M (A : Type) : Type := World -> Result A * World.

Definition ret {A : Type} (a : A) : M A := fun w => (Returns a, w).

Definition raise {A : Type} (e : exn) : M A := fun w => (Raises e, w).

Definition bind {A B : Type} (m : M A) (k : A -> M B) : M B :=
  fun w =>
    match m w with
    | (Returns a, w') => k a w'
    | (Raises e, w') => (Raises e, w')
    end.

(** [try: body  except Exception as e: handler(e)] *)
Definition try_except {A : Type} (body : M A) (handler : exn -> M A) : M A :=
  fun w =>
    match body w with
    | (Returns a, w') => (Returns a, w')
    | (Raises e, w') => handler e w'
    end.

Definition lift {A : Type} (r : Result A) : M A := fun w => (r, w).

Notation "'do' x <- m ; k" := (bind m (fun x => k))
  (at level 10, x name, m at level 100, k at level 200).
Notation "'run' m ; k" := (bind m (fun _ => k))
  (at level 10, m at level 100, k at level 200).

(** [os.getenv(name)]: [None] when the variable is not set. *)
Definition os_getenv (name : string) : M (option string) :=
  fun w => (Returns (environ w !! name), w).

(** [f"{x}"] for what [os.getenv] returns. *)
Definition fmt (x : option string) : string :=
  match x with
  | Some s => s
  | None => "None"
  end.

Definition py_of_getenv (x : option string) : pyval :=
  match x with
  | Some s => PStr s
  | None => PNone
  end.

(** ** Standard output

    A Python string is kept as the bytes of its UTF-8 encoding, and a
    surrogate code point (U+D800 to U+DFFF), which a Python string may hold
    and UTF-8 proper excludes, as the three bytes the same scheme gives it:
    [ED], then [A0] to [BF], then a continuation byte. *)

Definition byte_of (c : Ascii.ascii) : N := Ascii.N_of_ascii c.

Definition is_continuation (c : Ascii.ascii) : bool :=
  ((128 <=? byte_of c) && (byte_of c <? 192))%N.

Definition surrogate_head (c0 c1 : Ascii.ascii) : bool :=
  ((byte_of c0 =? 237) && (160 <=? byte_of c1) && (byte_of c1 <=? 191))%N.

(** The code point of the surrogate whose second and third bytes are [c1]
    and [c2]. *)
Definition surrogate_code (c1 c2 : Ascii.ascii) : N :=
  (53248 + (byte_of c1 - 128) * 64 + (byte_of c2 - 128))%N.

(** [len(s)]: the number of code points. *)
Fixpoint code_points (s : string) : nat :=
  match s with
  | EmptyString => 0%nat
  | String c s' =>
      if is_continuation c then code_points s' else S (code_points s')
  end.

(** The number of surrogates in a row at the head of [s]. *)
Fixpoint surrogate_run (s : string) : nat :=
  match s with
  | String c0 (String c1 (String c2 rest)) =>
      if surrogate_head c0 c1 then S (surrogate_run rest) else 0%nat
  | _ => 0%nat
  end.

(** The first surrogate of [s]: its index among the code points, counted
    from [pos] for the head of [s], its code point, and the length of the
    run of surrogates it starts. *)
Fixpoint find_surrogate (s : string) (pos : nat) : option (nat * N * nat) :=
  match s with
  | EmptyString => None
  | String c0 s' =>
      let next := if is_continuation c0 then pos else S pos in
      match s' with
      | String c1 (String c2 _) =>
          if surrogate_head c0 c1
          then Some (pos, surrogate_code c1 c2, surrogate_run s)
          else find_surrogate s' next
      | _ => find_surrogate s' next
      end
  end.

Definition hex_digit (d : N) : Ascii.ascii :=
  match String.get (N.to_nat d) "0123456789abcdef" with
  | Some c => c
  | None => Ascii.zero
  end.

(** ["%04x"] *)
Definition hex4 (n : N) : string :=
  String (hex_digit ((n / 4096) mod 16)%N)
    (String (hex_digit ((n / 256) mod 16)%N)
       (String (hex_digit ((n / 16) mod 16)%N)
          (String (hex_digit (n mod 16)%N) EmptyString))).

(** [str(e)] for the [UnicodeEncodeError] of the UTF-8 codec on the
    surrogates from index [start], [count] of them, the first being [code]. *)
Definition encode_error_text (start : nat) (code : N) (count : nat) : string :=
  if (count =? 1)%nat then
    "'utf-8' codec can't encode character '\u" +:+ hex4 code
      +:+ "' in position " +:+ pretty start +:+ ": surrogates not allowed"
  else
    "'utf-8' codec can't encode characters in position " +:+ pretty start
      +:+ "-" +:+ pretty (start + count - 1)%nat +:+ ": surrogates not allowed".

(** What [print(f"{prefix}{v}")] raises, if anything.  The text of a value
    that is not a string is made by [repr], which writes a surrogate as an
    escape, so only a string can be refused. *)
Definition print_error (prefix : string) (v : pyval) : option exn :=
  match v with
  | PStr s =>
      match find_surrogate s (code_points prefix) with
      | Some (start, code, count) =>
          Some (mk_exn UnicodeEncodeError (encode_error_text start code count))
      | None => None
      end
  | _ => None
  end.

(** [print(f"{prefix}{v}")] *)
Definition print_value (prefix : string) (v : pyval) : M unit :=
  match print_error prefix v with
  | Some e => raise e
  | None => ret tt
  end.

(** [response.raise_for_status()] of the requests library: a 4xx or a 5xx
    status raises [HTTPError], any other status returns. *)
Definition http_error_msg (kind : string) (r : Response) : string :=
  pretty (status_code r) +:+ " " +:+ kind +:+ " Error: " +:+ reason r
    +:+ " for url: " +:+ resp_url r.

Definition raise_for_status (r : Response) : M unit :=
  if (400 <=? status_code r) && (status_code r <? 500) then
    raise (mk_exn HTTPError (http_error_msg "Client" r))
  else if (500 <=? status_code r) && (status_code r <? 600) then
    raise (mk_exn HTTPError (http_error_msg "Server" r))
  else ret tt.

(** [response.json()] *)
Definition response_json (r : Response) : M pyval := lift (json_result r).

(** ** The program *)

Definition SYSTEM_PROMPT : string :=
"You are an AI assistant that helps people find movies and show recommendations on Netflix.

IMPORTANT FORMATTING RULES:
- Use bullet points with emojis for lists
- Use clear section headings
- Keep responses well-structured and easy to read
- Use line breaks between sections
- Bold important titles or key points
- Use a friendly, engaging tone

RESPONSE STRUCTURE:
🎬 **Movie/TV Show Recommendations:**
• Title 1 (Year) - Brief description
• Title 2 (Year) - Brief description

📝 **Why you might like these:**
• Reason 1
• Reason 2

💡 **Pro Tip:** Helpful additional information

Use only the tv shows and movies that are given in the prompt. Give the user a concise and helpful response.
If you don't know about a movie or it's not available on Netflix, be honest about it.

Keep responses friendly and helpful! Use Netflix-style recommendations with engaging formatting.".

(** What a route hands to Flask: [jsonify(d)] is status 200 with the
    dictionary as body, [jsonify(d), 500] the same body with status 500. *)
Record JsonResponse : Type := mk_json_response {
  http_status : Z;
  body : gmap string pyval
}.

Definition jsonify (d : gmap string pyval) : JsonResponse :=
  mk_json_response 200 d.

Definition jsonify_status (d : gmap string pyval) (code : Z) : JsonResponse :=
  mk_json_response code d.

(** The inbound request, as far as the program looks at it: what reading
    [request.json] gives (the decoded body, or the exception Flask raises
    when there is no body it can decode). *)
Record Request : Type := mk_chat_request {
  request_json : Result pyval
}.

Section App.

(** What is outside the program: what a call of [requests.post] comes to
    for a request, in the world as it is at the call (the library reads
    proxy and certificate settings from the environment at each call, and
    the service may remember what it was sent). *)
Variable upstream : World -> HttpRequest -> PostOutcome.

(** [requests.post(url, headers=headers, json=data, timeout=timeout)] *)
Definition requests_post (url : string) (headers : gmap string pyval)
    (data : pyval) (timeout : Z) : M Response :=
  fun w =>
    let rq := mk_request url headers data timeout in
    match upstream w rq with
    | PostRefused e =>
        (Raises e, mk_world (environ w) (sent w ++ [rq]) (on_wire w))
    | PostRaises e =>
        (Raises e, mk_world (environ w) (sent w ++ [rq]) (on_wire w ++ [rq]))
    | PostReturns r =>
        (Returns r, mk_world (environ w) (sent w ++ [rq]) (on_wire w ++ [rq]))
    end.

(** The [try] block of [call_azure_openai]. *)
Definition call_azure_openai_try (user_message : pyval) : M pyval :=
  do endpoint <- os_getenv "AZURE_OPENAI_ENDPOINT";
  do deployment <- os_getenv "AZURE_OPENAI_DEPLOYMENT_NAME";
  do version <- os_getenv "AZURE_OPENAI_API_VERSION";
  let url :=
    fmt endpoint +:+ "/openai/deployments/" +:+ fmt deployment
      +:+ "/chat/completions?api-version=" +:+ fmt version in
  do key <- os_getenv "AZURE_OPENAI_API_KEY";
  let headers : gmap string pyval :=
    {[ "Content-Type" := PStr "application/json";
       "api-key" := py_of_getenv key ]} in
  let data :=
    PDict {[ "messages" :=
               PList [ PDict {[ "role" := PStr "system";
                                "content" := PStr SYSTEM_PROMPT ]};
                       PDict {[ "role" := PStr "user";
                                "content" := user_message ]} ];
             "max_tokens" := PInt 800;
             "temperature" := PFloat 7 (-1) ]} in
  do response <- requests_post url headers data 30;
  run raise_for_status response;
  do result <- response_json response;
  do choices <- lift (py_getitem result (KStr "choices"));
  do choice <- lift (py_getitem choices (KInt 0));
  do message <- lift (py_getitem choice (KStr "message"));
  lift (py_getitem message (KStr "content")).

(** Its [except] clauses, in the order of the source. *)
Definition call_azure_openai_except (e : exn) : M pyval :=
  if isinstance_RequestException e then
    raise (Exception ("Network error: " +:+ exc_str e))
  else if isinstance_KeyError e then
    raise (Exception "Invalid response format from Azure OpenAI")
  else
    raise e.

Definition call_azure_openai (user_message : pyval) : M pyval :=
  try_except (call_azure_openai_try user_message) call_azure_openai_except.

(** The connection test at import time, which sets [azure_connected]. *)
Definition startup : M bool :=
  try_except
    (do test_response <- call_azure_openai (PStr "What are 2 popular movies on Netflix?");
     run print_value "✅ Azure OpenAI connection test successful! Response: " test_response;
     ret true)
    (fun e => ret false).

Definition connected_text (azure_connected : bool) : pyval :=
  PStr (if azure_connected then "Connected" else "Not connected").

(** [GET /] *)
Definition home (azure_connected : bool) : M JsonResponse :=
  ret (jsonify {[ "message" := PStr "Movie Recommendation Backend is running!";
                  "status" := PStr "success";
                  "azure_openai" := connected_text azure_connected ]}).

(** [POST /api/chat] *)
Definition chat (azure_connected : bool) (request : Request) : M JsonResponse :=
  try_except
    (if negb azure_connected then
       ret (jsonify_status
              {[ "reply" := PStr "Azure OpenAI is not connected. Please check your configuration.";
                 "status" := PStr "error" ]} 500)
     else
       do body_json <- lift (request_json request);
       do user_message <- lift (py_get body_json "message" (PStr ""));
       run print_value "📨 User message: " user_message;
       do bot_reply <- call_azure_openai user_message;
       run print_value "🤖 Bot response: " bot_reply;
       ret (jsonify {[ "reply" := bot_reply; "status" := PStr "success" ]}))
    (fun e =>
       ret (jsonify_status
              {[ "reply" := PStr ("I'm having trouble connecting to the movie database: "
                                  +:+ exc_str e);
                 "status" := PStr "error" ]} 500)).

(** [GET /api/health] *)
Definition health_check (azure_connected : bool) : M JsonResponse :=
  do deployment <- os_getenv "AZURE_OPENAI_DEPLOYMENT_NAME";
  ret (jsonify {[ "status" := PStr "Backend is running!";
                  "azure_openai" := connected_text azure_connected;
                  "deployment" := py_of_getenv deployment ]}).

(** [GET /api/test] *)
Definition test_connection : M JsonResponse :=
  try_except
    (do test_response <- call_azure_openai (PStr "What are 2 popular movies on Netflix?");
     ret (jsonify {[ "success" := PBool true;
                     "response" := test_response;
                     "message" := PStr "Azure OpenAI is working!" ]}))
    (fun e =>
       ret (jsonify_status {[ "success" := PBool false;
                              "error" := PStr (exc_str e) ]} 500)).

End App.

(** ** Reading aids for the statements *)

(** The request the completion client builds in environment [env] for the
    message [user_message]; [call_sent] below shows that it is the one the
    client sends. *)
Definition completion_url (env : gmap string string) : string :=
  fmt (env !! "AZURE_OPENAI_ENDPOINT") +:+ "/openai/deployments/"
    +:+ fmt (env !! "AZURE_OPENAI_DEPLOYMENT_NAME")
    +:+ "/chat/completions?api-version="
    +:+ fmt (env !! "AZURE_OPENAI_API_VERSION").

Definition completion_request (env : gmap string string) (user_message : pyval)
    : HttpRequest :=
  mk_request (completion_url env)
    {[ "Content-Type" := PStr "application/json";
       "api-key" := py_of_getenv (env !! "AZURE_OPENAI_API_KEY") ]}
    (PDict {[ "messages" :=
                PList [ PDict {[ "role" := PStr "system";
                                 "content" := PStr SYSTEM_PROMPT ]};
                        PDict {[ "role" := PStr "user";
                                 "content" := user_message ]} ];
              "max_tokens" := PInt 800;
              "temperature" := PFloat 7 (-1) ]})
    30.

(** The world after one more request with which the library went to the
    network, and after one that it refused. *)
Definition after_send (w : World) (rq : HttpRequest) : World :=
  mk_world (environ w) (sent w ++ [rq]) (on_wire w ++ [rq]).

Definition after_refusal (w : World) (rq : HttpRequest) : World :=
  mk_world (environ w) (sent w ++ [rq]) (on_wire w).

(** The prefixes of the three lines that print a value from outside. *)
Definition message_line : string := "📨 User message: ".
Definition reply_line : string := "🤖 Bot response: ".
Definition test_line : string := "✅ Azure OpenAI connection test successful! Response: ".

(** [choices[0].message.content] read as a path in a JSON document: a member
    of an object, the first element of an array.  This follows the words of
    the specification; the program uses Python subscripts ([py_getitem]). *)
Definition json_member (v : pyval) (k : string) : option pyval :=
  match v with
  | PDict d => d !! k
  | _ => None
  end.

Definition json_first (v : pyval) : option pyval :=
  match v with
  | PList (x :: _) => Some x
  | _ => None
  end.

Definition json_content (v : pyval) : option pyval :=
  match json_member v "choices" with
  | Some choices =>
      match json_first choices with
      | Some choice =>
          match json_member choice "message" with
          | Some message => json_member message "content"
          | None => None
          end
      | None => None
      end
  | None => None
  end.

(** The two bodies [/api/chat] answers with. *)
Definition chat_success (reply : pyval) : JsonResponse :=
  mk_json_response 200 {[ "reply" := reply; "status" := PStr "success" ]}.

Definition chat_error (description : string) : JsonResponse :=
  mk_json_response 500
    {[ "reply" := PStr ("I'm having trouble connecting to the movie database: "
                        +:+ description);
       "status" := PStr "error" ]}.

Definition chat_not_connected : JsonResponse :=
  mk_json_response 500
    {[ "reply" := PStr "Azure OpenAI is not connected. Please check your configuration.";
       "status" := PStr "error" ]}.

(** What the [try] block does once [requests.post] has returned. *)
Definition read_reply (response : Response) : M pyval :=
  run raise_for_status response;
  do result <- response_json response;
  do choices <- lift (py_getitem result (KStr "choices"));
  do choice <- lift (py_getitem choices (KInt 0));
  do message <- lift (py_getitem choice (KStr "message"));
  lift (py_getitem message (KStr "content")).

(** The two bodies [/api/test] answers with. *)
Definition test_ok (test_response : pyval) : JsonResponse :=
  mk_json_response 200
    {[ "success" := PBool true;
       "response" := test_response;
       "message" := PStr "Azure OpenAI is working!" ]}.

Definition test_failed (description : string) : JsonResponse :=
  mk_json_response 500
    {[ "success" := PBool false; "error" := PStr description ]}.

(** A decoded body in which one of the keys the client looks up is missing
    from the object that should hold it. *)
Definition missing_expected_key (v : pyval) : Prop :=
  (exists d, v = PDict d /\ d !! "choices" = None)
  \/ (exists choices c,
        json_member v "choices" = Some choices
        /\ json_first choices = Some (PDict c)
        /\ c !! "message" = None)
  \/ (exists choices choice m,
        json_member v "choices" = Some choices
        /\ json_first choices = Some choice
        /\ json_member choice "message" = Some (PDict m)
        /\ m !! "content" = None).

(** Two environments that give the four settings the same values. *)
Definition same_settings (env0 env1 : gmap string string) : Prop :=
  env0 !! "AZURE_OPENAI_ENDPOINT" = env1 !! "AZURE_OPENAI_ENDPOINT"
  /\ env0 !! "AZURE_OPENAI_DEPLOYMENT_NAME" = env1 !! "AZURE_OPENAI_DEPLOYMENT_NAME"
  /\ env0 !! "AZURE_OPENAI_API_VERSION" = env1 !! "AZURE_OPENAI_API_VERSION"
  /\ env0 !! "AZURE_OPENAI_API_KEY" = env1 !! "AZURE_OPENAI_API_KEY".

(** The body of the answer of a route, empty when the route raised. *)
Definition body_of (o : Result JsonResponse) : gmap string pyval :=
  match o with
  | Returns resp => body resp
  | Raises _ => ∅
  end.

(** ** Concrete inputs used in the examples *)

Definition example_env : gmap string string :=
  {[ "AZURE_OPENAI_ENDPOINT" := "https://movies.openai.azure.com";
     "AZURE_OPENAI_DEPLOYMENT_NAME" := "gpt-4o";
     "AZURE_OPENAI_API_VERSION" := "2024-02-01";
     "AZURE_OPENAI_API_KEY" := "k3y" ]}.

Definition example_world : World := mk_world example_env [] [].

(** A completion body with the given content, as the upstream service
    writes it. *)
Definition completion_body (content : pyval) : pyval :=
  PDict {[ "choices" :=
             PList [ PDict {[ "message" := PDict {[ "content" := content ]} ]} ] ]}.

Definition stub_response (code : Z) (text : string) (content : pyval) : Response :=
  mk_response code text "https://movies.openai.azure.com/" (Returns (completion_body content)).

(** An upstream service that treats every request alike. *)
Definition stub_upstream (o : PostOutcome)
    : World -> HttpRequest -> PostOutcome :=
  fun _ _ => o.

(** The environment after the deployment has been renamed in [os.environ]. *)
Definition changed_env : gmap string string :=
  <[ "AZURE_OPENAI_DEPLOYMENT_NAME" := "gpt-35-turbo" ]> example_env.

Definition chat_body (message : pyval) : Request :=
  mk_chat_request (Returns (PDict {[ "message" := message ]})).

(** ** The configuration printed at import

    The six [print] calls at the top of the module, as the lines they write
    for a given environment.  [bool(x)] is Python's truth value of what
    [os.getenv] returns: [None] and the empty string are false. *)
Definition truthy (x : option string) : bool :=
  match x with
  | Some (String _ _) => true
  | _ => false
  end.

Definition config_banner (env : gmap string string) : list string :=
  [ "=== Azure OpenAI Configuration ===";
    "Endpoint: " +:+ fmt (env !! "AZURE_OPENAI_ENDPOINT");
    "API Version: " +:+ fmt (env !! "AZURE_OPENAI_API_VERSION");
    "Deployment: " +:+ fmt (env !! "AZURE_OPENAI_DEPLOYMENT_NAME");
    "API Key present: "
      +:+ (if truthy (env !! "AZURE_OPENAI_API_KEY") then "Yes" else "No");
    "==================================" ].

(** The prompt of the connection test, at import and in [/api/test]. *)
Definition test_prompt : pyval := PStr "What are 2 popular movies on Netflix?".

(** An upstream service that refuses the first request and answers every
    later one. *)
Definition recovering_upstream
    : World -> HttpRequest -> PostOutcome :=
  fun w _ =>
    match sent w with
    | [] => PostRaises (mk_exn ConnectionError "Connection refused")
    | _ :: _ => PostReturns (stub_response 200 "OK" (PStr "Try X"))
    end.

(** A string that holds the one code point U+D800, a lone surrogate: what
    the JSON text ["\ud800"] decodes to. *)
Definition lone_surrogate : string :=
  String (Ascii.ascii_of_N 237)
    (String (Ascii.ascii_of_N 160) (String (Ascii.ascii_of_N 128) EmptyString)).

(** A [requests.post] that goes through the proxy named in the
    environment, when one is named, and cannot reach it. *)
Definition proxy_aware_upstream : World -> HttpRequest -> PostOutcome :=
  fun w _ =>
    match environ w !! "HTTPS_PROXY" with
    | Some _ => PostRaises (mk_exn ConnectionError "Cannot connect to proxy.")
    | None => PostReturns (stub_response 200 "OK" (PStr "Try X"))
    end.


(** ** The completion client, step by step *)

Section Client.

Variable upstream : World -> HttpRequest -> PostOutcome.

Lemma call_try_unfold (user_message : pyval) (w : World) :
  call_azure_openai_try upstream user_message w =
    let rq := completion_request (environ w) user_message in
    match upstream w rq with
    | PostRefused e => (Raises e, after_refusal w rq)
    | PostRaises e => (Raises e, after_send w rq)
    | PostReturns r => read_reply r (after_send w rq)
    end.
Proof.
  unfold call_azure_openai_try, bind, os_getenv, requests_post. cbn beta iota.
  fold (completion_url (environ w)).
  fold (completion_request (environ w) user_message).
  unfold after_send, after_refusal.
  destruct (upstream w (completion_request (environ w) user_message));
    reflexivity.
Qed.

(** No step of the client touches the environment, and none but
    [requests.post] touches the log. *)
Lemma read_reply_world (r : Response) (w : World) :
  snd (read_reply r w) = w.
Proof.
  unfold read_reply, bind, raise_for_status, response_json, lift, raise, ret.
  repeat (match goal with
          | |- context [if ?b then _ else _] => destruct b
          | |- context [match ?x with Returns _ => _ | Raises _ => _ end] =>
              destruct x
          end; cbn [fst snd]; try reflexivity).
Qed.

Lemma except_world (e : exn) (w : World) :
  snd (call_azure_openai_except e w) = w.
Proof.
  unfold call_azure_openai_except, raise.
  destruct (isinstance_RequestException e); [reflexivity|].
  destruct (isinstance_KeyError e); reflexivity.
Qed.

Lemma call_unfold (user_message : pyval) (w : World) :
  call_azure_openai upstream user_message w =
    let rq := completion_request (environ w) user_message in
    match upstream w rq with
    | PostRefused e => call_azure_openai_except e (after_refusal w rq)
    | PostRaises e => call_azure_openai_except e (after_send w rq)
    | PostReturns r =>
        try_except (read_reply r) call_azure_openai_except (after_send w rq)
    end.
Proof.
  unfold call_azure_openai, try_except. rewrite call_try_unfold. cbn zeta.
  destruct (upstream _ _); reflexivity.
Qed.

(** Every call of the client hands exactly one request to [requests.post]
    and leaves the environment alone. *)
Lemma call_world (user_message : pyval) (w : World) :
  snd (call_azure_openai upstream user_message w)
    = after_send w (completion_request (environ w) user_message)
  \/ snd (call_azure_openai upstream user_message w)
      = after_refusal w (completion_request (environ w) user_message).
Proof.
  rewrite call_unfold. cbn zeta.
  destruct (upstream _ _) as [e|e|r].
  - right. apply except_world.
  - left. apply except_world.
  - left. unfold try_except.
    pose proof (read_reply_world r
      (after_send w (completion_request (environ w) user_message))) as Hw.
    destruct (read_reply r _) as [[v|e] w']; cbn [snd] in Hw; subst w'.
    + reflexivity.
    + apply except_world.
Qed.

Lemma call_sent (user_message : pyval) (w : World) :
  sent (snd (call_azure_openai upstream user_message w))
  = sent w ++ [completion_request (environ w) user_message].
Proof.
  destruct (call_world user_message w) as [-> | ->]; reflexivity.
Qed.

Lemma call_environ (user_message : pyval) (w : World) :
  environ (snd (call_azure_openai upstream user_message w)) = environ w.
Proof.
  destruct (call_world user_message w) as [-> | ->]; reflexivity.
Qed.

Lemma list_index_first {A : Type} (x : A) (l : list A) :
  list_index (x :: l) 0 = Some x.
Proof.
  unfold list_index.
  replace (0 <? Z.of_nat (length (x :: l))) with true; [reflexivity|].
  symmetry. apply Z.ltb_lt. cbn [length]. lia.
Qed.

Lemma list_index_empty {A : Type} (n : Z) : list_index (@nil A) n = None.
Proof.
  unfold list_index. cbv zeta.
  repeat case_match; try apply lookup_nil; reflexivity.
Qed.

(** A status that [raise_for_status] lets through. *)
Lemma raise_for_status_passes (r : Response) (w : World) :
  ~ (400 <= status_code r < 600) ->
  raise_for_status r w = (Returns tt, w).
Proof.
  intros H. unfold raise_for_status.
  destruct (400 <=? status_code r) eqn:H4;
    destruct (status_code r <? 500) eqn:H5;
    destruct (500 <=? status_code r) eqn:H6;
    destruct (status_code r <? 600) eqn:H7; try reflexivity;
    exfalso; apply H;
    rewrite ?Z.leb_le, ?Z.ltb_lt, ?Z.leb_gt, ?Z.ltb_ge in *; lia.
Qed.

Lemma raise_for_status_raises (r : Response) (w : World) :
  400 <= status_code r < 600 ->
  raise_for_status r w =
    (Raises (mk_exn HTTPError
               (http_error_msg
                  (if status_code r <? 500 then "Client" else "Server") r)),
     w).
Proof.
  intros H. unfold raise_for_status.
  destruct (400 <=? status_code r) eqn:H4;
    destruct (status_code r <? 500) eqn:H5;
    destruct (500 <=? status_code r) eqn:H6;
    destruct (status_code r <? 600) eqn:H7; try reflexivity;
    exfalso;
    rewrite ?Z.leb_le, ?Z.ltb_lt, ?Z.leb_gt, ?Z.ltb_ge in *; lia.
Qed.

(** After a status that passes, [read_reply] is the decoder followed by
    the four subscripts. *)
Lemma read_reply_passes (r : Response) (w : World) :
  ~ (400 <= status_code r < 600) ->
  read_reply r w =
    match json_result r with
    | Raises e => (Raises e, w)
    | Returns result =>
        match py_getitem result (KStr "choices") with
        | Raises e => (Raises e, w)
        | Returns choices =>
            match py_getitem choices (KInt 0) with
            | Raises e => (Raises e, w)
            | Returns choice =>
                match py_getitem choice (KStr "message") with
                | Raises e => (Raises e, w)
                | Returns message =>
                    (py_getitem message (KStr "content"), w)
                end
            end
        end
    end.
Proof.
  intros H. unfold read_reply, bind.
  rewrite (raise_for_status_passes r w H).
  unfold response_json, lift.
  destruct (json_result r) as [result|e]; [|reflexivity].
  destruct (py_getitem result (KStr "choices")) as [choices|e]; [|reflexivity].
  destruct (py_getitem choices (KInt 0)) as [choice|e]; [|reflexivity].
  destruct (py_getitem choice (KStr "message")) as [message|e]; reflexivity.
Qed.

(** On a JSON document the subscripts of the program follow the path of
    the specification. *)
Lemma getitem_member (v x : pyval) (k : string) :
  json_member v k = Some x -> py_getitem v (KStr k) = Returns x.
Proof.
  destruct v; cbn [json_member]; try discriminate.
  intros H. cbn [py_getitem]. rewrite H. reflexivity.
Qed.

Lemma getitem_first (v x : pyval) :
  json_first v = Some x -> py_getitem v (KInt 0) = Returns x.
Proof.
  destruct v as [| | | | |l|]; cbn [json_first]; try discriminate.
  destruct l as [|y l]; [discriminate|].
  intros H. injection H as ->. cbn [py_getitem].
  rewrite list_index_first. reflexivity.
Qed.

Lemma read_reply_content (r : Response) (result content : pyval) (w : World) :
  ~ (400 <= status_code r < 600) ->
  json_result r = Returns result ->
  json_content result = Some content ->
  read_reply r w = (Returns content, w).
Proof.
  intros Hst Hjson Hc. rewrite (read_reply_passes r w Hst), Hjson.
  unfold json_content in Hc.
  destruct (json_member result "choices") as [choices|] eqn:H1; [|discriminate].
  destruct (json_first choices) as [choice|] eqn:H2; [|discriminate].
  destruct (json_member choice "message") as [message|] eqn:H3; [|discriminate].
  rewrite (getitem_member _ _ _ H1), (getitem_first _ _ H2),
    (getitem_member _ _ _ H3), (getitem_member _ _ _ Hc).
  reflexivity.
Qed.

Lemma getitem_missing (d : gmap string pyval) (k : string) :
  d !! k = None ->
  py_getitem (PDict d) (KStr k) = Raises (mk_exn KeyError (repr_key k)).
Proof. intros H. cbn [py_getitem]. rewrite H. reflexivity. Qed.

Lemma read_reply_missing_key (r : Response) (result : pyval) (w : World) :
  ~ (400 <= status_code r < 600) ->
  json_result r = Returns result ->
  missing_expected_key result ->
  exists e, isinstance_RequestException e = false
            /\ isinstance_KeyError e = true
            /\ read_reply r w = (Raises e, w).
Proof.
  intros Hst Hjson Hmiss. rewrite (read_reply_passes r w Hst), Hjson.
  destruct Hmiss as [(d & -> & Hd)
                    |[(choices & c & H1 & H2 & Hc)
                     |(choices & choice & m & H1 & H2 & H3 & Hm)]].
  - exists (mk_exn KeyError (repr_key "choices")).
    rewrite (getitem_missing d "choices" Hd). repeat split.
  - exists (mk_exn KeyError (repr_key "message")).
    rewrite (getitem_member _ _ _ H1), (getitem_first _ _ H2),
      (getitem_missing c "message" Hc). repeat split.
  - exists (mk_exn KeyError (repr_key "content")).
    rewrite (getitem_member _ _ _ H1), (getitem_first _ _ H2),
      (getitem_member _ _ _ H3), (getitem_missing m "content" Hm).
    repeat split.
Qed.

(** The result of the client does not depend on the environment beyond
    the request it builds. *)
Lemma read_reply_result (r : Response) (w1 w2 : World) :
  fst (read_reply r w1) = fst (read_reply r w2).
Proof.
  unfold read_reply, bind, raise_for_status, response_json, lift, raise, ret.
  repeat (match goal with
          | |- context [if ?b then _ else _] => destruct b
          | |- context [match ?x with Returns _ => _ | Raises _ => _ end] =>
              destruct x
          end; cbn [fst snd]; try reflexivity).
Qed.

Lemma except_result (e : exn) (w1 w2 : World) :
  fst (call_azure_openai_except e w1) = fst (call_azure_openai_except e w2).
Proof.
  unfold call_azure_openai_except, raise.
  destruct (isinstance_RequestException e); [reflexivity|].
  destruct (isinstance_KeyError e); reflexivity.
Qed.

End Client.

(** ** The routes *)

Section Routes.

Variable upstream : World -> HttpRequest -> PostOutcome.

(** [/api/chat] with the flag set, as one case analysis: on what reading
    the body gives, on what [.get] gives, on whether the message can be
    printed, on what the client gives, on whether its result can be
    printed. *)
Lemma chat_connected_unfold (request : Request) (w : World) :
  chat upstream true request w =
    match request_json request with
    | Raises e => (Returns (chat_error (exc_str e)), w)
    | Returns body_json =>
        match py_get body_json "message" (PStr "") with
        | Raises e => (Returns (chat_error (exc_str e)), w)
        | Returns user_message =>
            match print_error message_line user_message with
            | Some e => (Returns (chat_error (exc_str e)), w)
            | None =>
                match call_azure_openai upstream user_message w with
                | (Returns bot_reply, w') =>
                    (Returns
                       (match print_error reply_line bot_reply with
                        | Some e => chat_error (exc_str e)
                        | None => chat_success bot_reply
                        end),
                     w')
                | (Raises e, w') => (Returns (chat_error (exc_str e)), w')
                end
            end
        end
    end.
Proof.
  unfold chat, try_except, bind, lift, print_value. cbn [negb].
  fold message_line. fold reply_line.
  destruct (request_json request) as [body_json|e]; [|reflexivity].
  destruct (py_get body_json "message" (PStr "")) as [m|e]; [|reflexivity].
  destruct (print_error message_line m) as [e|]; [reflexivity|].
  cbn [ret].
  destruct (call_azure_openai upstream m w) as [[r|e] w']; [|reflexivity].
  destruct (print_error reply_line r) as [e|]; reflexivity.
Qed.

Lemma test_connection_unfold (w : World) :
  test_connection upstream w =
    match call_azure_openai upstream
            (PStr "What are 2 popular movies on Netflix?") w with
    | (Returns test_response, w') => (Returns (test_ok test_response), w')
    | (Raises e, w') => (Returns (test_failed (exc_str e)), w')
    end.
Proof.
  unfold test_connection, try_except, bind.
  destruct (call_azure_openai upstream _ w) as [[r|e] w']; reflexivity.
Qed.

End Routes.

(** C1. While the connectivity flag is false, [POST /api/chat] answers 500
    with the fixed text and status "error" whatever the request is, and the
    world is left as it was: nothing is added to the log of requests sent,
    so the completion client has not been called. *)
Theorem chat_not_connected_short_circuit
    (upstream : World -> HttpRequest -> PostOutcome)
    (request : Request) (w : World) :
  chat upstream false request w = (Returns chat_not_connected, w)
  /\ http_status chat_not_connected = 500
  /\ body chat_not_connected !! "reply"
     = Some (PStr "Azure OpenAI is not connected. Please check your configuration.")
  /\ body chat_not_connected !! "status" = Some (PStr "error")
  /\ sent (snd (chat upstream false request w)) = sent w.
Proof.
  repeat split.
Qed.





(** C9. While the flag is true, a request whose body does not decode to a
    JSON object never reaches the empty-string default: either reading
    [request.json] raises, or [.get] is missing on the decoded value (on
    [None] for JSON null).  The exception is caught in the handler, the
    answer is 500 with status "error" and a reply ending with its text, and
    no request is sent upstream. *)
Theorem chat_body_not_an_object
    (upstream : World -> HttpRequest -> PostOutcome)
    (request : Request) (w : World) :
  (forall d, request_json request <> Returns (PDict d)) ->
  exists e,
    (request_json request = Raises e
     \/ exists v, request_json request = Returns v
          /\ e = mk_exn AttributeError
                   ("'" +:+ type_name v +:+ "' object has no attribute 'get'"))
    /\ chat upstream true request w =
         (Returns
            (mk_json_response 500
               {[ "reply" := PStr ("I'm having trouble connecting to the movie database: "
                                   +:+ exc_str e);
                  "status" := PStr "error" ]}),
          w).
Proof.
  intros Hnot. rewrite chat_connected_unfold.
  destruct (request_json request) as [v|e] eqn:Hjson.
  - exists (mk_exn AttributeError
              ("'" +:+ type_name v +:+ "' object has no attribute 'get'")).
    split; [right; exists v; split; reflexivity|].
    destruct v; try reflexivity.
    exfalso. apply (Hnot d). reflexivity.
  - exists e. split; [left; reflexivity|reflexivity].
Qed.

Lemma chat_body_not_an_object_witness :
  (forall d, request_json (mk_chat_request (Returns PNone)) <> Returns (PDict d))
  /\ exists e,
       (request_json (mk_chat_request (Returns PNone)) = Raises e
        \/ exists v, request_json (mk_chat_request (Returns PNone)) = Returns v
             /\ e = mk_exn AttributeError
                      ("'" +:+ type_name v +:+ "' object has no attribute 'get'"))
       /\ chat (stub_upstream (PostReturns (stub_response 200 "OK" (PStr "Try X"))))
            true (mk_chat_request (Returns PNone)) example_world
          = (Returns
               (mk_json_response 500
                  {[ "reply" := PStr ("I'm having trouble connecting to the movie database: "
                                      +:+ exc_str e);
                     "status" := PStr "error" ]}),
             example_world).
Proof.
  assert (Hnot : forall d,
             request_json (mk_chat_request (Returns PNone)) <> Returns (PDict d)).
  { intros d H. discriminate H. }
  split; [exact Hnot|].
  exact (chat_body_not_an_object
           (stub_upstream (PostReturns (stub_response 200 "OK" (PStr "Try X"))))
           (mk_chat_request (Returns PNone)) example_world Hnot).
Defined.

(** JSON null as body, evaluated. *)
Example chat_null_body :
  chat (stub_upstream (PostReturns (stub_response 200 "OK" (PStr "Try X"))))
    true (mk_chat_request (Returns PNone)) example_world
  = (Returns
       (mk_json_response 500
          {[ "reply" := PStr "I'm having trouble connecting to the movie database: 'NoneType' object has no attribute 'get'";
             "status" := PStr "error" ]}),
     example_world).
Proof. vm_compute. reflexivity. Qed.

(** C10. [GET /api/test]: when the completion client returns, the answer is
    200 and its body has three fields, [success] true, [response] the
    client's result and [message] "Azure OpenAI is working!"; when the
    client raises, the answer is 500 and its body has the two fields
    [success] false and [error], and no other. *)
Theorem test_connection_bodies
    (upstream : World -> HttpRequest -> PostOutcome) (w : World) :
  (forall test_response w',
      call_azure_openai upstream (PStr "What are 2 popular movies on Netflix?") w
        = (Returns test_response, w') ->
      exists resp,
        test_connection upstream w = (Returns resp, w')
        /\ http_status resp = 200
        /\ body resp = {[ "success" := PBool true;
                          "response" := test_response;
                          "message" := PStr "Azure OpenAI is working!" ]}
        /\ body resp !! "message" = Some (PStr "Azure OpenAI is working!"))
  /\ (forall e w',
      call_azure_openai upstream (PStr "What are 2 popular movies on Netflix?") w
        = (Raises e, w') ->
      exists resp,
        test_connection upstream w = (Returns resp, w')
        /\ http_status resp = 500
        /\ body resp = {[ "success" := PBool false;
                          "error" := PStr (exc_str e) ]}
        /\ dom (body resp) = {[ "success"; "error" ]}).
Proof.
  split.
  - intros r w' Hcall. exists (test_ok r).
    rewrite test_connection_unfold, Hcall. repeat split.
  - intros e w' Hcall. exists (test_failed (exc_str e)).
    rewrite test_connection_unfold, Hcall. repeat split.
Qed.

Lemma test_connection_bodies_witness :
  (call_azure_openai
     (stub_upstream (PostReturns (stub_response 200 "OK" (PStr "Try X"))))
     (PStr "What are 2 popular movies on Netflix?") example_world
   = (Returns (PStr "Try X"),
      after_send example_world
        (completion_request example_env
           (PStr "What are 2 popular movies on Netflix?")))
   /\ exists resp,
        test_connection
          (stub_upstream (PostReturns (stub_response 200 "OK" (PStr "Try X"))))
          example_world
        = (Returns resp,
           after_send example_world
             (completion_request example_env
                (PStr "What are 2 popular movies on Netflix?")))
        /\ http_status resp = 200
        /\ body resp = {[ "success" := PBool true;
                          "response" := PStr "Try X";
                          "message" := PStr "Azure OpenAI is working!" ]}
        /\ body resp !! "message" = Some (PStr "Azure OpenAI is working!"))
  /\ (call_azure_openai
        (stub_upstream (PostRaises (mk_exn ConnectionError "Connection refused")))
        (PStr "What are 2 popular movies on Netflix?") example_world
      = (Raises (Exception "Network error: Connection refused"),
         after_send example_world
           (completion_request example_env
              (PStr "What are 2 popular movies on Netflix?")))
      /\ exists resp,
           test_connection
             (stub_upstream (PostRaises (mk_exn ConnectionError "Connection refused")))
             example_world
           = (Returns resp,
              after_send example_world
                (completion_request example_env
                   (PStr "What are 2 popular movies on Netflix?")))
           /\ http_status resp = 500
           /\ body resp = {[ "success" := PBool false;
                             "error" := PStr (exc_str (Exception "Network error: Connection refused")) ]}
           /\ dom (body resp) = {[ "success"; "error" ]}).
Proof.
  assert (Hok : call_azure_openai
     (stub_upstream (PostReturns (stub_response 200 "OK" (PStr "Try X"))))
     (PStr "What are 2 popular movies on Netflix?") example_world
   = (Returns (PStr "Try X"),
      after_send example_world
        (completion_request example_env
           (PStr "What are 2 popular movies on Netflix?")))).
  { vm_compute. reflexivity. }
  assert (Hko : call_azure_openai
        (stub_upstream (PostRaises (mk_exn ConnectionError "Connection refused")))
        (PStr "What are 2 popular movies on Netflix?") example_world
      = (Raises (Exception "Network error: Connection refused"),
         after_send example_world
           (completion_request example_env
              (PStr "What are 2 popular movies on Netflix?")))).
  { vm_compute. reflexivity. }
  split; (split; [assumption|]).
  - exact (proj1 (test_connection_bodies _ example_world) _ _ Hok).
  - exact (proj2 (test_connection_bodies _ example_world) _ _ Hko).
Defined.

(** C6. With the four settings present in the environment, one call of the
    completion client adds exactly one request to the log: a POST to
    [{endpoint}/openai/deployments/{deployment}/chat/completions?api-version={version}]
    whose [api-key] header is the configured key, whose JSON body holds
    exactly two messages (the fixed system prompt, then the user's message),
    [max_tokens] 800 and [temperature] 0.7, sent with a timeout of 30
    seconds. *)
Theorem call_sends_one_post
    (upstream : World -> HttpRequest -> PostOutcome)
    (user_message : pyval) (w : World)
    (endpoint deployment version key : string) :
  environ w !! "AZURE_OPENAI_ENDPOINT" = Some endpoint ->
  environ w !! "AZURE_OPENAI_DEPLOYMENT_NAME" = Some deployment ->
  environ w !! "AZURE_OPENAI_API_VERSION" = Some version ->
  environ w !! "AZURE_OPENAI_API_KEY" = Some key ->
  exists rq d,
    sent (snd (call_azure_openai upstream user_message w)) = sent w ++ [rq]
    /\ rq_url rq = endpoint +:+ "/openai/deployments/" +:+ deployment
                   +:+ "/chat/completions?api-version=" +:+ version
    /\ rq_headers rq !! "api-key" = Some (PStr key)
    /\ rq_json rq = PDict d
    /\ d !! "messages"
       = Some (PList [ PDict {[ "role" := PStr "system";
                                "content" := PStr SYSTEM_PROMPT ]};
                       PDict {[ "role" := PStr "user";
                                "content" := user_message ]} ])
    /\ d !! "max_tokens" = Some (PInt 800)
    /\ d !! "temperature" = Some (PFloat 7 (-1))
    /\ rq_timeout rq = 30.
Proof.
  intros He Hd Hv Hk.
  eexists (completion_request (environ w) user_message), _.
  rewrite call_sent.
  unfold completion_request, completion_url.
  cbn [rq_url rq_headers rq_json rq_timeout].
  rewrite He, Hd, Hv, Hk. cbn [fmt py_of_getenv].
  repeat split.
Qed.

Lemma call_sends_one_post_witness :
  environ example_world !! "AZURE_OPENAI_ENDPOINT"
    = Some "https://movies.openai.azure.com"
  /\ environ example_world !! "AZURE_OPENAI_DEPLOYMENT_NAME" = Some "gpt-4o"
  /\ environ example_world !! "AZURE_OPENAI_API_VERSION" = Some "2024-02-01"
  /\ environ example_world !! "AZURE_OPENAI_API_KEY" = Some "k3y"
  /\ exists rq d,
       sent (snd (call_azure_openai
                    (stub_upstream (PostReturns (stub_response 200 "OK" (PStr "Try X"))))
                    (PStr "recommend a comedy") example_world))
         = sent example_world ++ [rq]
       /\ rq_url rq = "https://movies.openai.azure.com" +:+ "/openai/deployments/"
                      +:+ "gpt-4o" +:+ "/chat/completions?api-version="
                      +:+ "2024-02-01"
       /\ rq_headers rq !! "api-key" = Some (PStr "k3y")
       /\ rq_json rq = PDict d
       /\ d !! "messages"
          = Some (PList [ PDict {[ "role" := PStr "system";
                                   "content" := PStr SYSTEM_PROMPT ]};
                          PDict {[ "role" := PStr "user";
                                   "content" := PStr "recommend a comedy" ]} ])
       /\ d !! "max_tokens" = Some (PInt 800)
       /\ d !! "temperature" = Some (PFloat 7 (-1))
       /\ rq_timeout rq = 30.
Proof.
  repeat (split; [reflexivity|]).
  apply (call_sends_one_post
           (stub_upstream (PostReturns (stub_response 200 "OK" (PStr "Try X"))))
           (PStr "recommend a comedy") example_world); reflexivity.
Defined.

(** C7. When the upstream service answers the client's request with a 2xx
    status and a JSON body that has [choices[0].message.content], the
    completion client returns exactly that value, a string when the content
    is a string. *)
Theorem call_returns_content
    (upstream : World -> HttpRequest -> PostOutcome)
    (user_message : pyval) (w : World) (r : Response) (result content : pyval) :
  upstream w (completion_request (environ w) user_message) = PostReturns r ->
  200 <= status_code r < 300 ->
  json_result r = Returns result ->
  json_content result = Some content ->
  call_azure_openai upstream user_message w
  = (Returns content,
     after_send w (completion_request (environ w) user_message)).
Proof.
  intros Hup Hst Hjson Hc.
  rewrite call_unfold. cbn zeta. rewrite Hup. unfold try_except.
  rewrite (read_reply_content r result content); [reflexivity|lia|assumption..].
Qed.

Lemma call_returns_content_witness :
  stub_upstream (PostReturns (stub_response 200 "OK" (PStr "Try X")))
    example_world
    (completion_request (environ example_world) (PStr "recommend a comedy"))
  = PostReturns (stub_response 200 "OK" (PStr "Try X"))
  /\ 200 <= status_code (stub_response 200 "OK" (PStr "Try X")) < 300
  /\ json_result (stub_response 200 "OK" (PStr "Try X"))
     = Returns (completion_body (PStr "Try X"))
  /\ json_content (completion_body (PStr "Try X")) = Some (PStr "Try X")
  /\ call_azure_openai
       (stub_upstream (PostReturns (stub_response 200 "OK" (PStr "Try X"))))
       (PStr "recommend a comedy") example_world
     = (Returns (PStr "Try X"),
        after_send example_world
          (completion_request (environ example_world) (PStr "recommend a comedy"))).
Proof.
  split; [reflexivity|]. split; [cbn; lia|]. split; [reflexivity|].
  split; [reflexivity|].
  apply (call_returns_content _ _ _ (stub_response 200 "OK" (PStr "Try X"))
           (completion_body (PStr "Try X"))).
  - reflexivity.
  - cbn; lia.
  - reflexivity.
  - reflexivity.
Defined.

(** C3, as stated, fails: with status 200 and the well-formed body
    [{"choices":[{"message":{"content":""}}]}] the reply of [POST /api/chat]
    is the empty string. *)
Lemma chat_reply_may_be_empty :
  ~ (forall (upstream : World -> HttpRequest -> PostOutcome)
            (message : string) (w : World) (r : Response)
            (result : pyval) (content : string),
        upstream w (completion_request (environ w) (PStr message))
          = PostReturns r ->
        200 <= status_code r < 300 ->
        json_result r = Returns result ->
        json_content result = Some (PStr content) ->
        exists reply w',
          chat upstream true (chat_body (PStr message)) w
            = (Returns
                 (mk_json_response 200
                    {[ "reply" := PStr reply; "status" := PStr "success" ]}),
               w')
          /\ reply <> "").
Proof.
  intros H.
  destruct (H (stub_upstream (PostReturns (stub_response 200 "OK" (PStr ""))))
              "recommend a comedy" example_world
              (stub_response 200 "OK" (PStr ""))
              (completion_body (PStr "")) "")
    as (reply & w' & Hchat & Hne).
  - reflexivity.
  - cbn; lia.
  - reflexivity.
  - reflexivity.
  - apply Hne.
    assert (Hrun : chat (stub_upstream (PostReturns (stub_response 200 "OK" (PStr ""))))
                     true (chat_body (PStr "recommend a comedy")) example_world
                   = (Returns (chat_success (PStr "")),
                      after_send example_world
                        (completion_request example_env (PStr "recommend a comedy")))).
    { vm_compute. reflexivity. }
    rewrite Hrun in Hchat.
    apply (f_equal (fun p : Result JsonResponse * World =>
                      match fst p with
                      | Returns resp => body resp !! "reply"
                      | Raises _ => None
                      end)) in Hchat.
    cbn [fst body chat_success] in Hchat.
    rewrite !lookup_insert_eq in Hchat. congruence.
Qed.

(** C3, amended. For every message string, when the upstream service
    answers the client's request with a 2xx status and a body whose
    [choices[0].message.content] is a string, both strings being ones that
    standard output can encode (no surrogate in them), [POST /api/chat]
    answers 200 with status "success" and that string as reply; the reply
    is non-empty exactly when the content is. *)
Theorem chat_success_reply
    (upstream : World -> HttpRequest -> PostOutcome)
    (message : string) (w : World) (r : Response)
    (result : pyval) (content : string) :
  upstream w (completion_request (environ w) (PStr message))
    = PostReturns r ->
  200 <= status_code r < 300 ->
  json_result r = Returns result ->
  json_content result = Some (PStr content) ->
  print_error message_line (PStr message) = None ->
  print_error reply_line (PStr content) = None ->
  chat upstream true (chat_body (PStr message)) w
  = (Returns
       (mk_json_response 200
          {[ "reply" := PStr content; "status" := PStr "success" ]}),
     after_send w (completion_request (environ w) (PStr message))).
Proof.
  intros Hup Hst Hjson Hc Hpm Hpc.
  rewrite chat_connected_unfold. cbn [chat_body request_json py_get].
  rewrite lookup_singleton_eq, Hpm, call_unfold. cbn zeta.
  rewrite Hup. unfold try_except.
  rewrite (read_reply_content r result (PStr content)); [|lia|assumption..].
  rewrite Hpc. reflexivity.
Qed.

(** C4, as stated, fails on its non-2xx clause: [raise_for_status] raises
    for 4xx and 5xx only, so an answer with status 300 and a well-formed
    body is not a failure at all and the client returns its content. *)
Lemma status_300_is_not_a_network_error :
  ~ (forall (upstream : World -> HttpRequest -> PostOutcome)
            (user_message : pyval) (w : World) (r : Response),
        upstream w (completion_request (environ w) user_message)
          = PostReturns r ->
        ~ (200 <= status_code r < 300) ->
        exists cause w',
          call_azure_openai upstream user_message w
            = (Raises (Exception ("Network error: " +:+ cause)), w')).
Proof.
  intros H.
  destruct (H (stub_upstream
                 (PostReturns (stub_response 300 "Multiple Choices" (PStr "Try X"))))
              (PStr "recommend a comedy") example_world
              (stub_response 300 "Multiple Choices" (PStr "Try X")))
    as (cause & w' & Hcall).
  - reflexivity.
  - cbn. lia.
  - assert (Hrun : call_azure_openai
                     (stub_upstream
                        (PostReturns (stub_response 300 "Multiple Choices" (PStr "Try X"))))
                     (PStr "recommend a comedy") example_world
                   = (Returns (PStr "Try X"),
                      after_send example_world
                        (completion_request example_env (PStr "recommend a comedy")))).
    { vm_compute. reflexivity. }
    rewrite Hrun in Hcall. discriminate Hcall.
Qed.

(** C4, amended. The completion client classifies the failures of the
    outbound call by the class of the exception raised in its [try] block:
    - an exception of the [RequestException] family, which is what
      [requests.post] raises on a network failure or a timeout and what
      [raise_for_status] raises on a 4xx or 5xx status, is raised again as
      [Exception("Network error: ...")] with the text of the cause;
    - a [KeyError], which is what a missing expected key in the decoded
      body gives, is raised again as
      [Exception("Invalid response format from Azure OpenAI")];
    - any other exception, such as the [IndexError] of an empty [choices]
      array, propagates unchanged.
    A status outside 4xx and 5xx is not a failure. *)
Theorem call_failure_classes
    (upstream : World -> HttpRequest -> PostOutcome)
    (user_message : pyval) (w : World) :
  let rq := completion_request (environ w) user_message in
  (forall e,
      upstream w rq = PostRaises e ->
      isinstance_RequestException e = true ->
      call_azure_openai upstream user_message w
        = (Raises (Exception ("Network error: " +:+ exc_str e)), after_send w rq))
  /\ (forall r,
      upstream w rq = PostReturns r ->
      400 <= status_code r < 600 ->
      call_azure_openai upstream user_message w
        = (Raises (Exception
                     ("Network error: "
                      +:+ http_error_msg
                            (if status_code r <? 500 then "Client" else "Server") r)),
           after_send w rq))
  /\ (forall r result,
      upstream w rq = PostReturns r ->
      ~ (400 <= status_code r < 600) ->
      json_result r = Returns result ->
      missing_expected_key result ->
      call_azure_openai upstream user_message w
        = (Raises (Exception "Invalid response format from Azure OpenAI"),
           after_send w rq))
  /\ (forall r d,
      upstream w rq = PostReturns r ->
      ~ (400 <= status_code r < 600) ->
      json_result r = Returns (PDict d) ->
      d !! "choices" = Some (PList []) ->
      call_azure_openai upstream user_message w
        = (Raises (mk_exn IndexError "list index out of range"), after_send w rq))
  /\ (forall e w',
      call_azure_openai_try upstream user_message w = (Raises e, w') ->
      (isinstance_RequestException e = true ->
       call_azure_openai upstream user_message w
         = (Raises (Exception ("Network error: " +:+ exc_str e)), w'))
      /\ (isinstance_RequestException e = false ->
          isinstance_KeyError e = true ->
          call_azure_openai upstream user_message w
            = (Raises (Exception "Invalid response format from Azure OpenAI"), w'))
      /\ (isinstance_RequestException e = false ->
          isinstance_KeyError e = false ->
          call_azure_openai upstream user_message w = (Raises e, w'))).
Proof.
  cbn zeta. split; [|split; [|split; [|split]]].
  - intros e Hup He. rewrite call_unfold. cbn zeta. rewrite Hup.
    unfold call_azure_openai_except. rewrite He. reflexivity.
  - intros r Hup Hst. rewrite call_unfold. cbn zeta. rewrite Hup.
    unfold try_except, read_reply, bind.
    rewrite (raise_for_status_raises r _ Hst). reflexivity.
  - intros r result Hup Hst Hjson Hmiss. rewrite call_unfold. cbn zeta.
    rewrite Hup. unfold try_except.
    destruct (read_reply_missing_key r result
                (after_send w (completion_request (environ w) user_message))
                Hst Hjson Hmiss) as (e & He1 & He2 & ->).
    unfold call_azure_openai_except. rewrite He1, He2. reflexivity.
  - intros r d Hup Hst Hjson Hd. rewrite call_unfold. cbn zeta. rewrite Hup.
    unfold try_except. rewrite (read_reply_passes r _ Hst), Hjson.
    cbn [py_getitem]. rewrite Hd. cbn [py_getitem].
    rewrite list_index_empty. reflexivity.
  - intros e w' Htry. unfold call_azure_openai, try_except. rewrite Htry.
    unfold call_azure_openai_except.
    split; [|split]; intros He; try intros He2; rewrite He, ?He2; reflexivity.
Qed.

Lemma call_failure_classes_witness :
  (* a timeout raised by [requests.post] *)
  (stub_upstream (PostRaises (mk_exn Timeout "Read timed out."))
     example_world
     (completion_request (environ example_world) (PStr "recommend a comedy"))
   = PostRaises (mk_exn Timeout "Read timed out.")
   /\ isinstance_RequestException (mk_exn Timeout "Read timed out.") = true
   /\ call_azure_openai (stub_upstream (PostRaises (mk_exn Timeout "Read timed out.")))
        (PStr "recommend a comedy") example_world
      = (Raises (Exception ("Network error: " +:+ "Read timed out.")),
         after_send example_world
           (completion_request (environ example_world) (PStr "recommend a comedy"))))
  (* status 404 *)
  /\ (400 <= status_code (stub_response 404 "Not Found" (PStr "Try X")) < 600
      /\ call_azure_openai
           (stub_upstream (PostReturns (stub_response 404 "Not Found" (PStr "Try X"))))
           (PStr "recommend a comedy") example_world
         = (Raises (Exception
                      ("Network error: "
                       +:+ http_error_msg
                             (if status_code (stub_response 404 "Not Found" (PStr "Try X"))
                                <? 500 then "Client" else "Server")
                             (stub_response 404 "Not Found" (PStr "Try X")))),
            after_send example_world
              (completion_request (environ example_world) (PStr "recommend a comedy"))))
  (* an object without [choices] *)
  /\ (missing_expected_key (PDict ∅)
      /\ call_azure_openai
           (stub_upstream (PostReturns (mk_response 200 "OK" "" (Returns (PDict ∅)))))
           (PStr "recommend a comedy") example_world
         = (Raises (Exception "Invalid response format from Azure OpenAI"),
            after_send example_world
              (completion_request (environ example_world) (PStr "recommend a comedy"))))
  (* an empty [choices] array *)
  /\ (({[ "choices" := PList [] ]} : gmap string pyval) !! "choices" = Some (PList [])
      /\ call_azure_openai
           (stub_upstream
              (PostReturns (mk_response 200 "OK" ""
                              (Returns (PDict {[ "choices" := PList [] ]})))))
           (PStr "recommend a comedy") example_world
         = (Raises (mk_exn IndexError "list index out of range"),
            after_send example_world
              (completion_request (environ example_world) (PStr "recommend a comedy"))))
  (* a body that is an array: the [TypeError] of the [try] block *)
  /\ (call_azure_openai_try
        (stub_upstream (PostReturns (mk_response 200 "OK" "" (Returns (PList [])))))
        (PStr "recommend a comedy") example_world
      = (Raises (mk_exn TypeError "list indices must be integers or slices, not str"),
         after_send example_world
           (completion_request (environ example_world) (PStr "recommend a comedy")))
      /\ call_azure_openai
           (stub_upstream (PostReturns (mk_response 200 "OK" "" (Returns (PList [])))))
           (PStr "recommend a comedy") example_world
         = (Raises (mk_exn TypeError "list indices must be integers or slices, not str"),
            after_send example_world
              (completion_request (environ example_world) (PStr "recommend a comedy")))).
Proof.
  split; [|split; [|split; [|split]]].
  - split; [reflexivity|]. split; [reflexivity|].
    apply (proj1 (call_failure_classes
                    (stub_upstream (PostRaises (mk_exn Timeout "Read timed out.")))
                    (PStr "recommend a comedy") example_world)
             (mk_exn Timeout "Read timed out."));
      reflexivity.
  - split; [cbn; lia|].
    apply (proj1 (proj2 (call_failure_classes
                    (stub_upstream
                       (PostReturns (stub_response 404 "Not Found" (PStr "Try X"))))
                    (PStr "recommend a comedy") example_world))
             (stub_response 404 "Not Found" (PStr "Try X")));
      [reflexivity|cbn; lia].
  - assert (Hmiss : missing_expected_key (PDict ∅)).
    { left. exists ∅. split; reflexivity. }
    split; [exact Hmiss|].
    apply (proj1 (proj2 (proj2 (call_failure_classes
                    (stub_upstream
                       (PostReturns (mk_response 200 "OK" "" (Returns (PDict ∅)))))
                    (PStr "recommend a comedy") example_world)))
             (mk_response 200 "OK" "" (Returns (PDict ∅))) (PDict ∅));
      [reflexivity|cbn; lia|reflexivity|exact Hmiss].
  - split; [reflexivity|].
    apply (proj1 (proj2 (proj2 (proj2 (call_failure_classes
                    (stub_upstream
                       (PostReturns (mk_response 200 "OK" ""
                                       (Returns (PDict {[ "choices" := PList [] ]})))))
                    (PStr "recommend a comedy") example_world))))
             (mk_response 200 "OK" "" (Returns (PDict {[ "choices" := PList [] ]})))
             {[ "choices" := PList [] ]});
      [reflexivity|cbn; lia|reflexivity|reflexivity].
  - assert (Htry : call_azure_openai_try
        (stub_upstream (PostReturns (mk_response 200 "OK" "" (Returns (PList [])))))
        (PStr "recommend a comedy") example_world
      = (Raises (mk_exn TypeError "list indices must be integers or slices, not str"),
         after_send example_world
           (completion_request (environ example_world) (PStr "recommend a comedy")))).
    { vm_compute. reflexivity. }
    split; [exact Htry|].
    apply (proj2 (proj2 (proj2 (proj2 (proj2 (call_failure_classes
                    (stub_upstream
                       (PostReturns (mk_response 200 "OK" "" (Returns (PList [])))))
                    (PStr "recommend a comedy") example_world))))
             _ _ Htry)); reflexivity.
Defined.

(** The 404 of the example, evaluated: the text of the cause is kept. *)
Example call_404 :
  fst (call_azure_openai
         (stub_upstream (PostReturns (stub_response 404 "Not Found" (PStr "Try X"))))
         (PStr "recommend a comedy") example_world)
  = Raises (Exception "Network error: 404 Client Error: Not Found for url: https://movies.openai.azure.com/").
Proof. vm_compute. reflexivity. Qed.

Lemma chat_success_reply_witness :
  stub_upstream (PostReturns (stub_response 200 "OK" (PStr "Try X")))
    example_world
    (completion_request (environ example_world) (PStr "recommend a comedy"))
  = PostReturns (stub_response 200 "OK" (PStr "Try X"))
  /\ 200 <= status_code (stub_response 200 "OK" (PStr "Try X")) < 300
  /\ json_result (stub_response 200 "OK" (PStr "Try X"))
     = Returns (completion_body (PStr "Try X"))
  /\ json_content (completion_body (PStr "Try X")) = Some (PStr "Try X")
  /\ print_error message_line (PStr "recommend a comedy") = None
  /\ print_error reply_line (PStr "Try X") = None
  /\ chat (stub_upstream (PostReturns (stub_response 200 "OK" (PStr "Try X"))))
       true (chat_body (PStr "recommend a comedy")) example_world
     = (Returns
          (mk_json_response 200
             {[ "reply" := PStr "Try X"; "status" := PStr "success" ]}),
        after_send example_world
          (completion_request (environ example_world) (PStr "recommend a comedy"))).
Proof.
  split; [reflexivity|]. split; [cbn; lia|]. split; [reflexivity|].
  split; [reflexivity|]. split; [vm_compute; reflexivity|].
  split; [vm_compute; reflexivity|].
  apply (chat_success_reply _ "recommend a comedy" example_world
           (stub_response 200 "OK" (PStr "Try X"))
           (completion_body (PStr "Try X")) "Try X").
  - reflexivity.
  - cbn; lia.
  - reflexivity.
  - reflexivity.
  - vm_compute; reflexivity.
  - vm_compute; reflexivity.
Defined.

(** C8, as stated, fails: the settings are read with [os.getenv] inside
    [call_azure_openai] and [health_check], at every call.  After the
    deployment variable has been changed in [os.environ], [/api/health]
    reports the new name. *)
Lemma settings_are_read_at_each_call :
  ~ (forall (upstream : World -> HttpRequest -> PostOutcome)
            (azure_connected : bool) (user_message : pyval)
            (env_at_start env_now : gmap string string)
            (log wire : list HttpRequest),
        fst (health_check azure_connected (mk_world env_now log wire))
          = fst (health_check azure_connected (mk_world env_at_start log wire))
        /\ fst (call_azure_openai upstream user_message (mk_world env_now log wire))
           = fst (call_azure_openai upstream user_message
                    (mk_world env_at_start log wire))
        /\ sent (snd (call_azure_openai upstream user_message
                        (mk_world env_now log wire)))
           = sent (snd (call_azure_openai upstream user_message
                          (mk_world env_at_start log wire)))).
Proof.
  intros H.
  destruct (H (stub_upstream (PostReturns (stub_response 200 "OK" (PStr "Try X"))))
              true (PStr "recommend a comedy") example_env changed_env [] [])
    as [Hhealth _].
  apply (f_equal (fun o : Result JsonResponse =>
                    match o with
                    | Returns resp => body resp !! "deployment"
                    | Raises _ => None
                    end)) in Hhealth.
  vm_compute in Hhealth. discriminate Hhealth.
Qed.

(** The two answers of [/api/health] and the two URLs of the client, before
    and after the change. *)
Example health_before_and_after :
  fst (health_check true (mk_world example_env [] []))
    = Returns (jsonify {[ "status" := PStr "Backend is running!";
                          "azure_openai" := PStr "Connected";
                          "deployment" := PStr "gpt-4o" ]})
  /\ fst (health_check true (mk_world changed_env [] []))
     = Returns (jsonify {[ "status" := PStr "Backend is running!";
                           "azure_openai" := PStr "Connected";
                           "deployment" := PStr "gpt-35-turbo" ]}).
Proof. split; vm_compute; reflexivity. Qed.

Example url_before_and_after :
  completion_url example_env
    = "https://movies.openai.azure.com/openai/deployments/gpt-4o/chat/completions?api-version=2024-02-01"
  /\ completion_url changed_env
     = "https://movies.openai.azure.com/openai/deployments/gpt-35-turbo/chat/completions?api-version=2024-02-01".
Proof. split; vm_compute; reflexivity. Qed.

(** C8, amended. The four settings are read from the environment at each
    call, not once at start; [max_tokens] and [temperature] are constants
    of the program.  What the program itself does with the environment
    goes through the current values of the four variables only: in two
    environments that give them the same values, [/api/health] gives the
    same answer and the client hands the same request to [requests.post];
    and when [requests.post] comes to the same in both (the library reads
    settings of its own from the environment), the client gives the same
    result. *)
Theorem behaviour_depends_on_current_settings
    (upstream : World -> HttpRequest -> PostOutcome)
    (azure_connected : bool) (user_message : pyval)
    (env0 env1 : gmap string string) (log wire : list HttpRequest) :
  same_settings env0 env1 ->
  fst (health_check azure_connected (mk_world env0 log wire))
    = fst (health_check azure_connected (mk_world env1 log wire))
  /\ sent (snd (call_azure_openai upstream user_message (mk_world env0 log wire)))
     = sent (snd (call_azure_openai upstream user_message (mk_world env1 log wire)))
  /\ (upstream (mk_world env0 log wire) (completion_request env0 user_message)
        = upstream (mk_world env1 log wire) (completion_request env1 user_message) ->
      fst (call_azure_openai upstream user_message (mk_world env0 log wire))
      = fst (call_azure_openai upstream user_message (mk_world env1 log wire)))
  /\ body_of (fst (health_check azure_connected (mk_world env0 log wire)))
       !! "deployment"
     = Some (py_of_getenv (env0 !! "AZURE_OPENAI_DEPLOYMENT_NAME"))
  /\ sent (snd (call_azure_openai upstream user_message (mk_world env0 log wire)))
     = log ++ [completion_request env0 user_message].
Proof.
  intros (He & Hd & Hv & Hk).
  assert (Hrq : completion_request env0 user_message
                = completion_request env1 user_message).
  { unfold completion_request, completion_url. rewrite He, Hd, Hv, Hk.
    reflexivity. }
  split; [|split; [|split; [|split]]].
  - unfold health_check, bind, os_getenv, ret. cbn [environ fst].
    rewrite Hd. reflexivity.
  - rewrite !call_sent. cbn [sent environ]. rewrite Hrq. reflexivity.
  - intros Hup. rewrite !call_unfold. cbn zeta. cbn [environ].
    rewrite Hup.
    destruct (upstream (mk_world env1 log wire)
                (completion_request env1 user_message)) as [e|e|r].
    + apply except_result.
    + apply except_result.
    + unfold try_except. rewrite Hrq.
      pose proof (read_reply_result r
        (after_send (mk_world env0 log wire) (completion_request env1 user_message))
        (after_send (mk_world env1 log wire) (completion_request env1 user_message)))
        as Hres.
      destruct (read_reply r (after_send (mk_world env0 log wire) _))
        as [[v0|e0] w0];
        destruct (read_reply r (after_send (mk_world env1 log wire) _))
          as [[v1|e1] w1];
        cbn [fst] in Hres; try discriminate Hres.
      * exact Hres.
      * injection Hres as ->. apply except_result.
  - reflexivity.
  - rewrite call_sent. reflexivity.
Qed.

Lemma behaviour_depends_on_current_settings_witness :
  same_settings example_env (<[ "PATH" := "/usr/bin" ]> example_env)
  /\ fst (health_check true (mk_world example_env [] []))
     = fst (health_check true
              (mk_world (<[ "PATH" := "/usr/bin" ]> example_env) [] []))
  /\ sent (snd (call_azure_openai
                  (stub_upstream (PostReturns (stub_response 200 "OK" (PStr "Try X"))))
                  (PStr "recommend a comedy") (mk_world example_env [] [])))
     = sent (snd (call_azure_openai
                    (stub_upstream (PostReturns (stub_response 200 "OK" (PStr "Try X"))))
                    (PStr "recommend a comedy")
                    (mk_world (<[ "PATH" := "/usr/bin" ]> example_env) [] [])))
  /\ fst (call_azure_openai
            (stub_upstream (PostReturns (stub_response 200 "OK" (PStr "Try X"))))
            (PStr "recommend a comedy") (mk_world example_env [] []))
     = fst (call_azure_openai
              (stub_upstream (PostReturns (stub_response 200 "OK" (PStr "Try X"))))
              (PStr "recommend a comedy")
              (mk_world (<[ "PATH" := "/usr/bin" ]> example_env) [] [])).
Proof.
  assert (Hsame : same_settings example_env (<[ "PATH" := "/usr/bin" ]> example_env)).
  { repeat split. }
  destruct (behaviour_depends_on_current_settings
              (stub_upstream (PostReturns (stub_response 200 "OK" (PStr "Try X"))))
              true (PStr "recommend a comedy")
              example_env (<[ "PATH" := "/usr/bin" ]> example_env) [] [] Hsame)
    as (Hhealth & Hsent & Hres & _).
  split; [exact Hsame|]. split; [exact Hhealth|]. split; [exact Hsent|].
  apply Hres. reflexivity.
Defined.

(** What the amended statement leaves to [requests.post]: a variable that is
    none of the four can change the outcome of the call through the
    library, here by naming a proxy that cannot be reached. *)
Example proxy_changes_the_outcome :
  same_settings example_env (<[ "HTTPS_PROXY" := "http://proxy:3128" ]> example_env)
  /\ fst (call_azure_openai proxy_aware_upstream (PStr "recommend a comedy")
            (mk_world example_env [] []))
     = Returns (PStr "Try X")
  /\ fst (call_azure_openai proxy_aware_upstream (PStr "recommend a comedy")
            (mk_world (<[ "HTTPS_PROXY" := "http://proxy:3128" ]> example_env) [] []))
     = Raises (Exception "Network error: Cannot connect to proxy.").
Proof. repeat split; vm_compute; reflexivity. Qed.

(** ** Start-up and the example of the specification *)

(** The flag is the outcome of one call of the client at import time and
    of printing its result. *)
Lemma startup_unfold
    (upstream : World -> HttpRequest -> PostOutcome) (w : World) :
  startup upstream w =
    match call_azure_openai upstream
            (PStr "What are 2 popular movies on Netflix?") w with
    | (Returns test_response, w') =>
        (Returns (match print_error test_line test_response with
                  | Some _ => false
                  | None => true
                  end),
         w')
    | (Raises _, w') => (Returns false, w')
    end.
Proof.
  unfold startup, try_except, bind, ret, print_value. fold test_line.
  destruct (call_azure_openai upstream _ w) as [[r|e] w']; [|reflexivity].
  destruct (print_error test_line r); reflexivity.
Qed.

(** [/] and [/api/health] report the flag they are given, in the same
    words. *)
Lemma home_and_health_agree (azure_connected : bool) (w : World) :
  body_of (fst (home azure_connected w)) !! "azure_openai"
  = body_of (fst (health_check azure_connected w)) !! "azure_openai".
Proof. reflexivity. Qed.

(** POST [/api/chat] with [{"message":"recommend a comedy"}] against an
    upstream answering [{"choices":[{"message":{"content":"Try X"}}]}]. *)
Example chat_try_x :
  fst (chat (stub_upstream (PostReturns (stub_response 200 "OK" (PStr "Try X"))))
         true (chat_body (PStr "recommend a comedy")) example_world)
  = Returns (mk_json_response 200
               {[ "reply" := PStr "Try X"; "status" := PStr "success" ]}).
Proof. vm_compute. reflexivity. Qed.

(** ** Further properties of the program *)

(** *** Shared steps *)

(** An [except] clause of the client always raises, and what it raises is
    neither of the requests family nor a [KeyError]. *)
Lemma except_raises (e : exn) (w : World) :
  exists e',
    call_azure_openai_except e w = (Raises e', w)
    /\ isinstance_RequestException e' = false
    /\ isinstance_KeyError e' = false.
Proof.
  unfold call_azure_openai_except, raise.
  destruct (isinstance_RequestException e) eqn:Hr.
  - eexists. repeat split.
  - destruct (isinstance_KeyError e) eqn:Hk.
    + eexists. repeat split.
    + exists e. repeat split; assumption.
Qed.

Lemma list_index_first_inv {A : Type} (l : list A) (x : A) :
  list_index l 0 = Some x -> exists l', l = x :: l'.
Proof.
  destruct l as [|y l'].
  - rewrite list_index_empty. discriminate.
  - rewrite list_index_first. intros H. injection H as ->. exists l'. reflexivity.
Qed.

(** The subscripts of the program succeed only along the JSON path. *)
Lemma getitem_member_inv (v x : pyval) (k : string) :
  py_getitem v (KStr k) = Returns x -> json_member v k = Some x.
Proof.
  destruct v; cbn [py_getitem json_member type_name]; try discriminate.
  destruct (d !! k); [|discriminate]. intros H. injection H as ->. reflexivity.
Qed.

Lemma getitem_first_inv (v x y : pyval) (k : string) :
  py_getitem v (KInt 0) = Returns x ->
  py_getitem x (KStr k) = Returns y ->
  json_first v = Some x.
Proof.
  destruct v as [| | | |s|l|d]; cbn [py_getitem type_name]; try discriminate.
  - destruct (list_index (string_chars s) 0); [|discriminate].
    intros H. injection H as <-. cbn [py_getitem]. discriminate.
  - destruct (list_index l 0) as [z|] eqn:Hl; [|discriminate].
    intros H _. injection H as ->.
    destruct (list_index_first_inv l x Hl) as [l' ->]. reflexivity.
Qed.

Lemma read_reply_returns_inv (r : Response) (w w' : World) (v : pyval) :
  read_reply r w = (Returns v, w') ->
  ~ (400 <= status_code r < 600)
  /\ exists result, json_result r = Returns result
                    /\ json_content result = Some v.
Proof.
  intros H.
  destruct (decide (400 <= status_code r < 600)) as [Hst|Hst].
  - unfold read_reply, bind in H.
    rewrite (raise_for_status_raises r w Hst) in H. discriminate H.
  - split; [exact Hst|].
    rewrite (read_reply_passes r w Hst) in H.
    destruct (json_result r) as [result|e]; [|discriminate H].
    exists result. split; [reflexivity|].
    destruct (py_getitem result (KStr "choices")) as [choices|e] eqn:H1;
      [|discriminate H].
    destruct (py_getitem choices (KInt 0)) as [choice|e] eqn:H2;
      [|discriminate H].
    destruct (py_getitem choice (KStr "message")) as [message|e] eqn:H3;
      [|discriminate H].
    destruct (py_getitem message (KStr "content")) as [content|e] eqn:H4;
      [|discriminate H].
    injection H as -> _.
    unfold json_content.
    rewrite (getitem_member_inv _ _ _ H1),
      (getitem_first_inv _ _ _ _ H2 H3),
      (getitem_member_inv _ _ _ H3).
    apply getitem_member_inv. exact H4.
Qed.

(** One chat with a body whose [message] can be printed: it returns, one
    request is handed to [requests.post] and the environment is as it
    was. *)
Lemma chat_body_runs
    (upstream : World -> HttpRequest -> PostOutcome)
    (message : pyval) (w : World) :
  print_error message_line message = None ->
  exists resp w',
    chat upstream true (chat_body message) w = (Returns resp, w')
    /\ sent w' = sent w ++ [completion_request (environ w) message]
    /\ environ w' = environ w.
Proof.
  intros Hp.
  rewrite chat_connected_unfold. cbn [chat_body request_json py_get].
  rewrite lookup_singleton_eq, Hp.
  pose proof (call_sent upstream message w) as Hs.
  pose proof (call_environ upstream message w) as He.
  destruct (call_azure_openai upstream message w) as [[v|e] w'];
    cbn [snd] in Hs, He; eexists _, w'; repeat split; assumption.
Qed.

(** *** Start-up *)


(** A service whose answer holds a lone surrogate: the call returns, the
    [print] of line 89 raises, and the flag is false. *)
Example startup_with_unprintable_reply :
  fst (startup
         (stub_upstream (PostReturns (stub_response 200 "OK" (PStr lone_surrogate))))
         example_world)
  = Returns false.
Proof. vm_compute. reflexivity. Qed.



(** The same service a moment later: [/api/test] succeeds where
    [/api/chat] stays closed. *)
Example test_succeeds_after_failed_startup :
  fst (test_connection recovering_upstream
         (after_send example_world (completion_request example_env test_prompt)))
  = Returns (test_ok (PStr "Try X")).
Proof. vm_compute. reflexivity. Qed.

(** X3. [/api/test] never raises, and from the same world it makes the
    same single call as the connection test at import.  Whenever start-up
    would set the flag, [/api/test] answers 200 with [success] true;
    whenever [/api/test] answers 500, start-up would leave the flag false.
    The two differ in one case only: a result of the client that cannot be
    printed, which [/api/test] returns and start-up trips over. *)
Theorem test_connection_versus_startup
    (upstream : World -> HttpRequest -> PostOutcome) (w : World) :
  exists (azure_connected : bool) (resp : JsonResponse),
    fst (startup upstream w) = Returns azure_connected
    /\ fst (test_connection upstream w) = Returns resp
    /\ snd (test_connection upstream w) = snd (startup upstream w)
    /\ sent (snd (test_connection upstream w))
       = sent w ++ [completion_request (environ w) test_prompt]
    /\ (azure_connected = true ->
        http_status resp = 200 /\ body resp !! "success" = Some (PBool true))
    /\ (http_status resp = 500 ->
        azure_connected = false /\ body resp !! "success" = Some (PBool false))
    /\ (http_status resp = 200 -> azure_connected = false ->
        exists test_response print_failure,
          body resp !! "response" = Some test_response
          /\ print_error test_line test_response = Some print_failure).
Proof.
  rewrite startup_unfold, test_connection_unfold. fold test_prompt.
  pose proof (call_sent upstream test_prompt w) as Hs.
  destruct (call_azure_openai upstream test_prompt w) as [[v|e] w'];
    cbn [fst snd] in *.
  - destruct (print_error test_line v) as [pe|] eqn:Hp.
    + exists false, (test_ok v). repeat split; try assumption; try discriminate.
      intros _ _. exists v, pe. split; [reflexivity|exact Hp].
    + exists true, (test_ok v). repeat split; try assumption; discriminate.
  - exists false, (test_failed (exc_str e)).
    repeat split; try assumption; discriminate.
Qed.

Lemma test_connection_versus_startup_witness :
  exists (azure_connected : bool) (resp : JsonResponse),
    fst (startup
           (stub_upstream (PostReturns (stub_response 200 "OK" (PStr lone_surrogate))))
           example_world) = Returns azure_connected
    /\ fst (test_connection
              (stub_upstream (PostReturns (stub_response 200 "OK" (PStr lone_surrogate))))
              example_world) = Returns resp
    /\ snd (test_connection
              (stub_upstream (PostReturns (stub_response 200 "OK" (PStr lone_surrogate))))
              example_world)
       = snd (startup
                (stub_upstream (PostReturns (stub_response 200 "OK" (PStr lone_surrogate))))
                example_world)
    /\ sent (snd (test_connection
                    (stub_upstream
                       (PostReturns (stub_response 200 "OK" (PStr lone_surrogate))))
                    example_world))
       = sent example_world ++ [completion_request (environ example_world) test_prompt]
    /\ (azure_connected = true ->
        http_status resp = 200 /\ body resp !! "success" = Some (PBool true))
    /\ (http_status resp = 500 ->
        azure_connected = false /\ body resp !! "success" = Some (PBool false))
    /\ (http_status resp = 200 -> azure_connected = false ->
        exists test_response print_failure,
          body resp !! "response" = Some test_response
          /\ print_error test_line test_response = Some print_failure).
Proof.
  exact (test_connection_versus_startup
           (stub_upstream (PostReturns (stub_response 200 "OK" (PStr lone_surrogate))))
           example_world).
Defined.

(** The same service, evaluated: [/api/test] answers 200. *)
Example test_with_unprintable_reply :
  fst (test_connection
         (stub_upstream (PostReturns (stub_response 200 "OK" (PStr lone_surrogate))))
         example_world)
  = Returns (test_ok (PStr lone_surrogate)).
Proof. vm_compute. reflexivity. Qed.

(** *** The chat route *)

(** X4. [POST /api/chat] never raises.  Its answer is 200 with status
    "success" or 500 with status "error", and its body has the two fields
    [reply] and [status] and no other. *)
Theorem chat_always_answers
    (upstream : World -> HttpRequest -> PostOutcome)
    (azure_connected : bool) (request : Request) (w : World) :
  exists resp,
    fst (chat upstream azure_connected request w) = Returns resp
    /\ ((http_status resp = 200 /\ body resp !! "status" = Some (PStr "success"))
        \/ (http_status resp = 500 /\ body resp !! "status" = Some (PStr "error")))
    /\ dom (body resp) = {[ "reply"; "status" ]}.
Proof.
  destruct azure_connected.
  - rewrite chat_connected_unfold.
    destruct (request_json request) as [body_json|e].
    + destruct (py_get body_json "message" (PStr "")) as [m|e].
      * destruct (print_error message_line m) as [pe|].
        { exists (chat_error (exc_str pe)). split; [reflexivity|].
          split; [right|]; repeat split. }
        destruct (call_azure_openai upstream m w) as [[v|e] w'].
        -- destruct (print_error reply_line v) as [pe|].
           ++ exists (chat_error (exc_str pe)). split; [reflexivity|].
              split; [right|]; repeat split.
           ++ exists (chat_success v). split; [reflexivity|]. split; [left|];
                repeat split.
        -- exists (chat_error (exc_str e)). split; [reflexivity|].
           split; [right|]; repeat split.
      * exists (chat_error (exc_str e)). split; [reflexivity|].
        split; [right|]; repeat split.
    + exists (chat_error (exc_str e)). split; [reflexivity|].
      split; [right|]; repeat split.
  - exists chat_not_connected. split; [reflexivity|].
    split; [right|]; repeat split.
Qed.


(** A message that cannot be printed: the handler answers 500 and
    [requests.post] is not called. *)
Example chat_with_unprintable_message :
  chat (stub_upstream (PostReturns (stub_response 200 "OK" (PStr "Try X"))))
    true (chat_body (PStr lone_surrogate)) example_world
  = (Returns
       (mk_json_response 500
          {[ "reply" := PStr "I'm having trouble connecting to the movie database: 'utf-8' codec can't encode character '\ud800' in position 16: surrogates not allowed";
             "status" := PStr "error" ]}),
     example_world).
Proof. vm_compute. reflexivity. Qed.

(** X6. The handler looks at nothing in the body but [message]: two JSON
    objects with the same [message] (or both without one) get the same
    answer and cause the same request. *)
Theorem chat_reads_message_only
    (upstream : World -> HttpRequest -> PostOutcome)
    (azure_connected : bool) (d1 d2 : gmap string pyval) (w : World) :
  d1 !! "message" = d2 !! "message" ->
  chat upstream azure_connected (mk_chat_request (Returns (PDict d1))) w
  = chat upstream azure_connected (mk_chat_request (Returns (PDict d2))) w.
Proof.
  intros Hm. destruct azure_connected; [|reflexivity].
  rewrite !chat_connected_unfold. cbn [request_json py_get].
  rewrite Hm. reflexivity.
Qed.

Lemma chat_reads_message_only_witness :
  ({[ "message" := PStr "recommend a comedy"; "user" := PStr "ann" ]}
     : gmap string pyval) !! "message"
  = ({[ "message" := PStr "recommend a comedy" ]} : gmap string pyval) !! "message"
  /\ chat (stub_upstream (PostReturns (stub_response 200 "OK" (PStr "Try X"))))
       true
       (mk_chat_request
          (Returns (PDict {[ "message" := PStr "recommend a comedy";
                             "user" := PStr "ann" ]})))
       example_world
     = chat (stub_upstream (PostReturns (stub_response 200 "OK" (PStr "Try X"))))
         true
         (mk_chat_request
            (Returns (PDict {[ "message" := PStr "recommend a comedy" ]})))
         example_world.
Proof.
  split; [reflexivity|].
  apply (chat_reads_message_only
           (stub_upstream (PostReturns (stub_response 200 "OK" (PStr "Try X"))))
           true
           {[ "message" := PStr "recommend a comedy"; "user" := PStr "ann" ]}
           {[ "message" := PStr "recommend a comedy" ]} example_world).
  reflexivity.
Defined.

(** X7. There is no conversation state: two chats in a row, with messages
    that can be printed, make two calls of [requests.post], each with the
    system prompt and its own message only, and the second request is the
    one a first chat would have made. *)
Theorem chats_are_independent
    (upstream : World -> HttpRequest -> PostOutcome)
    (m1 m2 : pyval) (w : World) :
  print_error message_line m1 = None ->
  print_error message_line m2 = None ->
  sent (snd (bind (chat upstream true (chat_body m1))
                  (fun _ => chat upstream true (chat_body m2)) w))
  = sent w ++ [ completion_request (environ w) m1;
                completion_request (environ w) m2 ].
Proof.
  intros Hp1 Hp2. unfold bind.
  destruct (chat_body_runs upstream m1 w Hp1) as (resp1 & w1 & -> & Hs1 & He1).
  destruct (chat_body_runs upstream m2 w1 Hp2) as (resp2 & w2 & -> & Hs2 & He2).
  cbn [snd]. rewrite Hs2, Hs1, He1, <- app_assoc. reflexivity.
Qed.

Lemma chats_are_independent_witness :
  print_error message_line (PStr "recommend a comedy") = None
  /\ print_error message_line (PStr "and a thriller") = None
  /\ sent (snd (bind (chat recovering_upstream true
                        (chat_body (PStr "recommend a comedy")))
                     (fun _ => chat recovering_upstream true
                                 (chat_body (PStr "and a thriller")))
                     example_world))
     = sent example_world
         ++ [ completion_request (environ example_world) (PStr "recommend a comedy");
              completion_request (environ example_world) (PStr "and a thriller") ].
Proof.
  split; [vm_compute; reflexivity|]. split; [vm_compute; reflexivity|].
  apply (chats_are_independent recovering_upstream
           (PStr "recommend a comedy") (PStr "and a thriller") example_world);
    vm_compute; reflexivity.
Defined.

(** *** The completion client *)

(** X8. No exception of the requests family and no [KeyError] ever leaves
    the completion client: whatever it raises is neither. *)
Theorem client_hides_transport_and_key_errors
    (upstream : World -> HttpRequest -> PostOutcome)
    (user_message : pyval) (w w' : World) (e : exn) :
  call_azure_openai upstream user_message w = (Raises e, w') ->
  isinstance_RequestException e = false /\ isinstance_KeyError e = false.
Proof.
  rewrite call_unfold. cbn zeta.
  destruct (upstream _ _) as [e0|e0|r].
  - destruct (except_raises e0
                (after_refusal w (completion_request (environ w) user_message)))
      as (e' & -> & Hr & Hk).
    intros H. injection H as <- _. split; assumption.
  - destruct (except_raises e0
                (after_send w (completion_request (environ w) user_message)))
      as (e' & -> & Hr & Hk).
    intros H. injection H as <- _. split; assumption.
  - unfold try_except.
    destruct (read_reply r _) as [[v|e0] w0]; [discriminate|].
    destruct (except_raises e0 w0) as (e' & -> & Hr & Hk).
    intros H. injection H as <- _. split; assumption.
Qed.

Lemma client_hides_transport_and_key_errors_witness :
  call_azure_openai
    (stub_upstream (PostReturns (stub_response 503 "Service Unavailable" (PStr "Try X"))))
    (PStr "recommend a comedy") example_world
  = (Raises (Exception "Network error: 503 Server Error: Service Unavailable for url: https://movies.openai.azure.com/"),
     after_send example_world
       (completion_request example_env (PStr "recommend a comedy")))
  /\ isinstance_RequestException
       (Exception "Network error: 503 Server Error: Service Unavailable for url: https://movies.openai.azure.com/")
     = false
  /\ isinstance_KeyError
       (Exception "Network error: 503 Server Error: Service Unavailable for url: https://movies.openai.azure.com/")
     = false.
Proof.
  assert (Hcall : call_azure_openai
    (stub_upstream (PostReturns (stub_response 503 "Service Unavailable" (PStr "Try X"))))
    (PStr "recommend a comedy") example_world
  = (Raises (Exception "Network error: 503 Server Error: Service Unavailable for url: https://movies.openai.azure.com/"),
     after_send example_world
       (completion_request example_env (PStr "recommend a comedy")))).
  { vm_compute. reflexivity. }
  split; [exact Hcall|].
  exact (client_hides_transport_and_key_errors _ _ _ _ _ Hcall).
Defined.

(** X9. The completion client returns a value in one situation only: the
    upstream service answered, with a status outside 4xx and 5xx, a body
    that decodes and has [choices[0].message.content]; and then it
    returns that content.  In every other situation it raises. *)
Theorem client_returns_iff
    (upstream : World -> HttpRequest -> PostOutcome)
    (user_message : pyval) (w : World) (content : pyval) :
  fst (call_azure_openai upstream user_message w) = Returns content
  <-> exists r result,
        upstream w (completion_request (environ w) user_message)
          = PostReturns r
        /\ ~ (400 <= status_code r < 600)
        /\ json_result r = Returns result
        /\ json_content result = Some content.
Proof.
  rewrite call_unfold. cbn zeta. split.
  - destruct (upstream _ _) as [e0|e0|r].
    + destruct (except_raises e0
                  (after_refusal w (completion_request (environ w) user_message)))
        as (e' & -> & _). discriminate.
    + destruct (except_raises e0
                  (after_send w (completion_request (environ w) user_message)))
        as (e' & -> & _). discriminate.
    + unfold try_except.
      destruct (read_reply r _) as [[v|e0] w0] eqn:Hread.
      * cbn [fst]. intros H. injection H as ->.
        destruct (read_reply_returns_inv r _ _ _ Hread)
          as (Hst & result & Hjson & Hc).
        exists r, result. repeat split; assumption.
      * destruct (except_raises e0 w0) as (e' & -> & _). discriminate.
  - intros (r & result & -> & Hst & Hjson & Hc). unfold try_except.
    rewrite (read_reply_content r result content _ Hst Hjson Hc). reflexivity.
Qed.

Lemma client_returns_iff_witness :
  (exists r result,
      stub_upstream (PostReturns (stub_response 201 "Created" PNone))
        example_world
        (completion_request (environ example_world) (PStr "recommend a comedy"))
        = PostReturns r
      /\ ~ (400 <= status_code r < 600)
      /\ json_result r = Returns result
      /\ json_content result = Some PNone)
  /\ fst (call_azure_openai
            (stub_upstream (PostReturns (stub_response 201 "Created" PNone)))
            (PStr "recommend a comedy") example_world)
     = Returns PNone.
Proof.
  assert (Hex : exists r result,
      stub_upstream (PostReturns (stub_response 201 "Created" PNone))
        example_world
        (completion_request (environ example_world) (PStr "recommend a comedy"))
        = PostReturns r
      /\ ~ (400 <= status_code r < 600)
      /\ json_result r = Returns result
      /\ json_content result = Some PNone).
  { exists (stub_response 201 "Created" PNone), (completion_body PNone).
    split; [reflexivity|]. split; [cbn; lia|]. split; reflexivity. }
  split; [exact Hex|].
  exact (proj2 (client_returns_iff
                  (stub_upstream (PostReturns (stub_response 201 "Created" PNone)))
                  (PStr "recommend a comedy") example_world PNone) Hex).
Defined.

(** X10. The reply is relayed as it comes, whatever its JSON type: when the
    upstream content is [null] (or a number, a list, ...), [POST /api/chat]
    still answers 200 with status "success" and that value as [reply].
    The message and the content must be ones the handler can print, which
    every value but a string with a surrogate is. *)
Theorem chat_relays_any_content
    (upstream : World -> HttpRequest -> PostOutcome)
    (request : Request) (body_json user_message : pyval) (w : World)
    (r : Response) (result content : pyval) :
  request_json request = Returns body_json ->
  py_get body_json "message" (PStr "") = Returns user_message ->
  upstream w (completion_request (environ w) user_message)
    = PostReturns r ->
  ~ (400 <= status_code r < 600) ->
  json_result r = Returns result ->
  json_content result = Some content ->
  print_error message_line user_message = None ->
  print_error reply_line content = None ->
  chat upstream true request w
  = (Returns
       (mk_json_response 200
          {[ "reply" := content; "status" := PStr "success" ]}),
     after_send w (completion_request (environ w) user_message)).
Proof.
  intros Hjson Hget Hup Hst Hres Hc Hpm Hpc.
  rewrite chat_connected_unfold, Hjson, Hget, Hpm, call_unfold. cbn zeta.
  rewrite Hup. unfold try_except.
  rewrite (read_reply_content r result content _ Hst Hres Hc), Hpc.
  reflexivity.
Qed.

Lemma chat_relays_any_content_witness :
  request_json (chat_body (PInt 7)) = Returns (PDict {[ "message" := PInt 7 ]})
  /\ py_get (PDict {[ "message" := PInt 7 ]}) "message" (PStr "") = Returns (PInt 7)
  /\ ~ (400 <= status_code (stub_response 200 "OK" PNone) < 600)
  /\ print_error message_line (PInt 7) = None
  /\ print_error reply_line PNone = None
  /\ chat (stub_upstream (PostReturns (stub_response 200 "OK" PNone)))
       true (chat_body (PInt 7)) example_world
     = (Returns
          (mk_json_response 200 {[ "reply" := PNone; "status" := PStr "success" ]}),
        after_send example_world (completion_request (environ example_world) (PInt 7))).
Proof.
  split; [reflexivity|]. split; [reflexivity|]. split; [cbn; lia|].
  split; [reflexivity|]. split; [reflexivity|].
  apply (chat_relays_any_content
           (stub_upstream (PostReturns (stub_response 200 "OK" PNone)))
           (chat_body (PInt 7)) (PDict {[ "message" := PInt 7 ]}) (PInt 7)
           example_world (stub_response 200 "OK" PNone) (completion_body PNone) PNone).
  - reflexivity.
  - reflexivity.
  - reflexivity.
  - cbn; lia.
  - reflexivity.
  - reflexivity.
  - reflexivity.
  - reflexivity.
Defined.

(** X11. A decoded body that is not a JSON object (an array, a string, a
    number, [null]) is not reported as a response-format error: the
    subscript raises [TypeError], which leaves the client unchanged. *)
Theorem body_not_an_object_is_a_type_error
    (upstream : World -> HttpRequest -> PostOutcome)
    (user_message : pyval) (w : World) (r : Response) (result : pyval) :
  upstream w (completion_request (environ w) user_message)
    = PostReturns r ->
  ~ (400 <= status_code r < 600) ->
  json_result r = Returns result ->
  (forall d, result <> PDict d) ->
  exists text,
    call_azure_openai upstream user_message w
    = (Raises (mk_exn TypeError text),
       after_send w (completion_request (environ w) user_message))
    /\ text <> "Invalid response format from Azure OpenAI".
Proof.
  intros Hup Hst Hjson Hnot. rewrite call_unfold. cbn zeta. rewrite Hup.
  unfold try_except. rewrite (read_reply_passes r _ Hst), Hjson.
  destruct result as [| | | |s|l|d];
    try (eexists; split; [reflexivity|discriminate]).
  exfalso. apply (Hnot d). reflexivity.
Qed.

Lemma body_not_an_object_is_a_type_error_witness :
  ~ (400 <= status_code (mk_response 200 "OK" "" (Returns PNone)) < 600)
  /\ (forall d, PNone <> PDict d)
  /\ exists text,
       call_azure_openai
         (stub_upstream (PostReturns (mk_response 200 "OK" "" (Returns PNone))))
         (PStr "recommend a comedy") example_world
       = (Raises (mk_exn TypeError text),
          after_send example_world
            (completion_request (environ example_world) (PStr "recommend a comedy")))
       /\ text <> "Invalid response format from Azure OpenAI".
Proof.
  assert (Hst : ~ (400 <= status_code (mk_response 200 "OK" "" (Returns PNone)) < 600)).
  { cbn; lia. }
  assert (Hnot : forall d, PNone <> PDict d).
  { intros d H. discriminate H. }
  split; [exact Hst|]. split; [exact Hnot|].
  exact (body_not_an_object_is_a_type_error
           (stub_upstream (PostReturns (mk_response 200 "OK" "" (Returns PNone))))
           (PStr "recommend a comedy") example_world
           (mk_response 200 "OK" "" (Returns PNone)) PNone
           eq_refl Hst eq_refl Hnot).
Defined.

(** The text of that error for a [null] body. *)
Example null_body_text :
  fst (call_azure_openai
         (stub_upstream (PostReturns (mk_response 200 "OK" "" (Returns PNone))))
         (PStr "recommend a comedy") example_world)
  = Raises (mk_exn TypeError "'NoneType' object is not subscriptable").
Proof. vm_compute. reflexivity. Qed.

(** X12. A [choices] of the wrong JSON type: when it is an object, the
    subscript [[0]] finds no such key and the client reports a
    response-format error; when it is a non-empty string, [[0]] succeeds
    with its first character and it is the next subscript that fails, with
    a [TypeError] that propagates unchanged. *)
Theorem choices_of_the_wrong_type
    (upstream : World -> HttpRequest -> PostOutcome)
    (user_message : pyval) (w : World) (r : Response) (d : gmap string pyval) :
  upstream w (completion_request (environ w) user_message)
    = PostReturns r ->
  ~ (400 <= status_code r < 600) ->
  json_result r = Returns (PDict d) ->
  (forall c, d !! "choices" = Some (PDict c) ->
     call_azure_openai upstream user_message w
     = (Raises (Exception "Invalid response format from Azure OpenAI"),
        after_send w (completion_request (environ w) user_message)))
  /\ (forall a s, d !! "choices" = Some (PStr (String a s)) ->
     exists text,
       call_azure_openai upstream user_message w
       = (Raises (mk_exn TypeError text),
          after_send w (completion_request (environ w) user_message))).
Proof.
  intros Hup Hst Hjson. split.
  - intros c Hc. rewrite call_unfold. cbn zeta. rewrite Hup.
    unfold try_except. rewrite (read_reply_passes r _ Hst), Hjson.
    cbn [py_getitem]. rewrite Hc. reflexivity.
  - intros a s Hs. rewrite call_unfold. cbn zeta. rewrite Hup.
    unfold try_except. rewrite (read_reply_passes r _ Hst), Hjson.
    cbn [py_getitem]. rewrite Hs. cbn [py_getitem string_chars].
    rewrite list_index_first. eexists. reflexivity.
Qed.

Lemma choices_of_the_wrong_type_witness :
  ~ (400 <= status_code
              (mk_response 200 "OK" ""
                 (Returns (PDict {[ "choices" := PDict ∅ ]}))) < 600)
  /\ ({[ "choices" := PDict ∅ ]} : gmap string pyval) !! "choices" = Some (PDict ∅)
  /\ call_azure_openai
       (stub_upstream
          (PostReturns (mk_response 200 "OK" ""
                          (Returns (PDict {[ "choices" := PDict ∅ ]})))))
       (PStr "recommend a comedy") example_world
     = (Raises (Exception "Invalid response format from Azure OpenAI"),
        after_send example_world
          (completion_request (environ example_world) (PStr "recommend a comedy")))
  /\ ({[ "choices" := PStr "none" ]} : gmap string pyval) !! "choices"
     = Some (PStr "none")
  /\ exists text,
       call_azure_openai
         (stub_upstream
            (PostReturns (mk_response 200 "OK" ""
                            (Returns (PDict {[ "choices" := PStr "none" ]})))))
         (PStr "recommend a comedy") example_world
       = (Raises (mk_exn TypeError text),
          after_send example_world
            (completion_request (environ example_world) (PStr "recommend a comedy"))).
Proof.
  assert (Hst : ~ (400 <= status_code
              (mk_response 200 "OK" ""
                 (Returns (PDict {[ "choices" := PDict ∅ ]}))) < 600)).
  { cbn; lia. }
  split; [exact Hst|]. split; [reflexivity|].
  assert (Hst2 : ~ (400 <= status_code
              (mk_response 200 "OK" ""
                 (Returns (PDict {[ "choices" := PStr "none" ]}))) < 600)).
  { cbn; lia. }
  split; [|split; [reflexivity|
    eapply (proj2 (choices_of_the_wrong_type
                     (stub_upstream
                        (PostReturns (mk_response 200 "OK" ""
                                        (Returns (PDict {[ "choices" := PStr "none" ]})))))
                     (PStr "recommend a comedy") example_world
                     (mk_response 200 "OK" ""
                        (Returns (PDict {[ "choices" := PStr "none" ]})))
                     {[ "choices" := PStr "none" ]} eq_refl Hst2 eq_refl));
    reflexivity]].
  exact (proj1 (choices_of_the_wrong_type
                  (stub_upstream
                     (PostReturns (mk_response 200 "OK" ""
                                     (Returns (PDict {[ "choices" := PDict ∅ ]})))))
                  (PStr "recommend a comedy") example_world
                  (mk_response 200 "OK" ""
                     (Returns (PDict {[ "choices" := PDict ∅ ]})))
                  {[ "choices" := PDict ∅ ]} eq_refl Hst eq_refl)
           ∅ eq_refl).
Defined.

(** X13. A body that cannot be decoded, after a status that passes: when
    [response.json()] raises the decoding error of the requests library,
    which belongs to the [RequestException] family, the client reports it
    as a network error; when it raises a plain [ValueError], the error
    propagates unchanged. *)
Theorem undecodable_body
    (upstream : World -> HttpRequest -> PostOutcome)
    (user_message : pyval) (w : World) (r : Response) (e : exn) :
  upstream w (completion_request (environ w) user_message)
    = PostReturns r ->
  ~ (400 <= status_code r < 600) ->
  json_result r = Raises e ->
  (exc_cls e = RequestsJSONDecodeError ->
     call_azure_openai upstream user_message w
     = (Raises (Exception ("Network error: " +:+ exc_str e)),
        after_send w (completion_request (environ w) user_message)))
  /\ (exc_cls e = ValueError ->
     call_azure_openai upstream user_message w
     = (Raises e, after_send w (completion_request (environ w) user_message))).
Proof.
  intros Hup Hst Hjson.
  assert (Hcall : call_azure_openai upstream user_message w
                  = call_azure_openai_except e
                      (after_send w (completion_request (environ w) user_message))).
  { rewrite call_unfold. cbn zeta. rewrite Hup. unfold try_except.
    rewrite (read_reply_passes r _ Hst), Hjson. reflexivity. }
  rewrite Hcall. unfold call_azure_openai_except, isinstance_RequestException,
    isinstance_KeyError, raise.
  split; intros ->; reflexivity.
Qed.

Lemma undecodable_body_witness :
  ~ (400 <= status_code
              (mk_response 200 "OK" ""
                 (Raises (mk_exn RequestsJSONDecodeError
                            "Expecting value: line 1 column 1 (char 0)"))) < 600)
  /\ call_azure_openai
       (stub_upstream
          (PostReturns
             (mk_response 200 "OK" ""
                (Raises (mk_exn RequestsJSONDecodeError
                           "Expecting value: line 1 column 1 (char 0)")))))
       (PStr "recommend a comedy") example_world
     = (Raises (Exception
                  ("Network error: "
                   +:+ exc_str (mk_exn RequestsJSONDecodeError
                                  "Expecting value: line 1 column 1 (char 0)"))),
        after_send example_world
          (completion_request (environ example_world) (PStr "recommend a comedy")))
  /\ call_azure_openai
       (stub_upstream
          (PostReturns
             (mk_response 200 "OK" ""
                (Raises (mk_exn ValueError "Expecting value: line 1 column 1 (char 0)")))))
       (PStr "recommend a comedy") example_world
     = (Raises (mk_exn ValueError "Expecting value: line 1 column 1 (char 0)"),
        after_send example_world
          (completion_request (environ example_world) (PStr "recommend a comedy"))).
Proof.
  assert (Hst : ~ (400 <= status_code
              (mk_response 200 "OK" ""
                 (Raises (mk_exn RequestsJSONDecodeError
                            "Expecting value: line 1 column 1 (char 0)"))) < 600)).
  { cbn; lia. }
  assert (Hst2 : ~ (400 <= status_code
              (mk_response 200 "OK" ""
                 (Raises (mk_exn ValueError
                            "Expecting value: line 1 column 1 (char 0)"))) < 600)).
  { cbn; lia. }
  split; [exact Hst|].
  split; [|
    exact (proj2 (undecodable_body
                    (stub_upstream
                       (PostReturns
                          (mk_response 200 "OK" ""
                             (Raises (mk_exn ValueError
                                        "Expecting value: line 1 column 1 (char 0)")))))
                    (PStr "recommend a comedy") example_world
                    (mk_response 200 "OK" ""
                       (Raises (mk_exn ValueError
                                  "Expecting value: line 1 column 1 (char 0)")))
                    (mk_exn ValueError "Expecting value: line 1 column 1 (char 0)")
                    eq_refl Hst2 eq_refl)
             eq_refl)].
  exact (proj1 (undecodable_body
                  (stub_upstream
                     (PostReturns
                        (mk_response 200 "OK" ""
                           (Raises (mk_exn RequestsJSONDecodeError
                                      "Expecting value: line 1 column 1 (char 0)")))))
                  (PStr "recommend a comedy") example_world
                  (mk_response 200 "OK" ""
                     (Raises (mk_exn RequestsJSONDecodeError
                                "Expecting value: line 1 column 1 (char 0)")))
                  (mk_exn RequestsJSONDecodeError
                     "Expecting value: line 1 column 1 (char 0)")
                  eq_refl Hst eq_refl)
           eq_refl).
Defined.

(** X14. The client does not check the settings itself: with the endpoint
    and the key missing from the environment it still calls
    [requests.post], once, with the text "None" where the endpoint should
    be in the URL and [None] as the value of the [api-key] header.  When
    the library refuses that request before any I/O, as requests does for
    a URL without scheme with an error of its own family, nothing goes on
    the wire and the client raises "Network error: " followed by the text
    of the library. *)
Theorem unset_settings_reach_requests_post
    (upstream : World -> HttpRequest -> PostOutcome)
    (user_message : pyval) (w : World) :
  environ w !! "AZURE_OPENAI_ENDPOINT" = None ->
  environ w !! "AZURE_OPENAI_API_KEY" = None ->
  exists rq,
    sent (snd (call_azure_openai upstream user_message w)) = sent w ++ [rq]
    /\ rq_url rq
       = "None/openai/deployments/"
           +:+ fmt (environ w !! "AZURE_OPENAI_DEPLOYMENT_NAME")
           +:+ "/chat/completions?api-version="
           +:+ fmt (environ w !! "AZURE_OPENAI_API_VERSION")
    /\ rq_headers rq !! "api-key" = Some PNone
    /\ (forall e,
          upstream w rq = PostRefused e ->
          isinstance_RequestException e = true ->
          fst (call_azure_openai upstream user_message w)
            = Raises (Exception ("Network error: " +:+ exc_str e))
          /\ on_wire (snd (call_azure_openai upstream user_message w))
             = on_wire w).
Proof.
  intros He Hk. exists (completion_request (environ w) user_message).
  rewrite call_sent. split; [reflexivity|].
  split; [|split].
  - unfold completion_request, completion_url. cbn [rq_url].
    rewrite He. reflexivity.
  - unfold completion_request. cbn [rq_headers]. rewrite Hk. reflexivity.
  - intros e Hup Hfam. rewrite call_unfold. cbn zeta. rewrite Hup.
    unfold call_azure_openai_except. rewrite Hfam. split; reflexivity.
Qed.

Lemma unset_settings_reach_requests_post_witness :
  environ (mk_world ∅ [] []) !! "AZURE_OPENAI_ENDPOINT" = None
  /\ environ (mk_world ∅ [] []) !! "AZURE_OPENAI_API_KEY" = None
  /\ exists rq,
       sent (snd (call_azure_openai
                    (stub_upstream
                       (PostRefused (mk_exn RequestException "No scheme supplied.")))
                    (PStr "recommend a comedy") (mk_world ∅ [] [])))
         = sent (mk_world ∅ [] []) ++ [rq]
       /\ rq_url rq
          = "None/openai/deployments/"
              +:+ fmt (environ (mk_world ∅ [] []) !! "AZURE_OPENAI_DEPLOYMENT_NAME")
              +:+ "/chat/completions?api-version="
              +:+ fmt (environ (mk_world ∅ [] []) !! "AZURE_OPENAI_API_VERSION")
       /\ rq_headers rq !! "api-key" = Some PNone
       /\ (forall e,
             stub_upstream
               (PostRefused (mk_exn RequestException "No scheme supplied."))
               (mk_world ∅ [] []) rq = PostRefused e ->
             isinstance_RequestException e = true ->
             fst (call_azure_openai
                    (stub_upstream
                       (PostRefused (mk_exn RequestException "No scheme supplied.")))
                    (PStr "recommend a comedy") (mk_world ∅ [] []))
               = Raises (Exception ("Network error: " +:+ exc_str e))
             /\ on_wire (snd (call_azure_openai
                                (stub_upstream
                                   (PostRefused
                                      (mk_exn RequestException "No scheme supplied.")))
                                (PStr "recommend a comedy") (mk_world ∅ [] [])))
                = on_wire (mk_world ∅ [] [])).
Proof.
  split; [reflexivity|]. split; [reflexivity|].
  exact (unset_settings_reach_requests_post
           (stub_upstream (PostRefused (mk_exn RequestException "No scheme supplied.")))
           (PStr "recommend a comedy") (mk_world ∅ [] []) eq_refl eq_refl).
Defined.

(** The refusal, evaluated: the client raises and nothing is on the wire. *)
Example refused_request :
  call_azure_openai
    (stub_upstream (PostRefused (mk_exn RequestException "No scheme supplied.")))
    (PStr "recommend a comedy") (mk_world ∅ [] [])
  = (Raises (Exception "Network error: No scheme supplied."),
     mk_world ∅ [completion_request ∅ (PStr "recommend a comedy")] []).
Proof. vm_compute. reflexivity. Qed.

(** The URL with nothing set. *)
Example url_with_nothing_set :
  completion_url ∅
  = "None/openai/deployments/None/chat/completions?api-version=None".
Proof. vm_compute. reflexivity. Qed.

(** *** The status routes and the banner *)

(** X15. [GET /] and [GET /api/health] never raise, answer 200, send
    nothing and leave the world as it was; both report the flag in the
    same words, "Connected" when it is true and "Not connected" when it is
    false, and [/api/health] reports the deployment currently in the
    environment, [null] when there is none. *)
Theorem status_routes_are_read_only (azure_connected : bool) (w : World) :
  exists h k,
    home azure_connected w = (Returns h, w)
    /\ health_check azure_connected w = (Returns k, w)
    /\ http_status h = 200
    /\ http_status k = 200
    /\ body h !! "azure_openai" = body k !! "azure_openai"
    /\ body k !! "azure_openai"
       = Some (PStr (if azure_connected then "Connected" else "Not connected"))
    /\ body k !! "deployment"
       = Some (match environ w !! "AZURE_OPENAI_DEPLOYMENT_NAME" with
               | Some name => PStr name
               | None => PNone
               end).
Proof.
  eexists _, _. split; [reflexivity|]. split; [reflexivity|].
  repeat split.
Qed.



(** An empty key counts as no key. *)
Example banner_with_empty_key :
  config_banner (<[ "AZURE_OPENAI_API_KEY" := "" ]> example_env) !! 4%nat
  = Some "API Key present: No".
Proof. vm_compute. reflexivity. Qed.

(** *** Client and handler together *)



(** The reply for the 401 of the example, in full. *)
Example chat_401 :
  fst (chat (stub_upstream (PostReturns (stub_response 401 "Unauthorized" (PStr "Try X"))))
         true (chat_body (PStr "recommend a comedy")) example_world)
  = Returns
      (mk_json_response 500
         {[ "reply" := PStr "I'm having trouble connecting to the movie database: Network error: 401 Client Error: Unauthorized for url: https://movies.openai.azure.com/";
            "status" := PStr "error" ]}).
Proof. vm_compute. reflexivity. Qed.
